(** * A shallow embedding of [app.py]: persona chat with per-session history

    The program is a Streamlit script.  It holds a fixed table of expert
    roles, a per-session dictionary of chat histories, a prompt template
    and one function, [ask_llm_once], that sends the assembled messages to
    a hosted model through LangChain's [RunnableWithMessageHistory].

    Python strings are modelled as lists of Unicode code points, Python
    objects that are mutated in place (the chat histories) live in an
    explicit heap and the dictionary stores references to them, and the
    remote model is an arbitrary function from the request to either an
    exception or the text of the reply. *)

From Stdlib Require Import String Ascii.
From stdpp Require Import base numbers option list gmap fin_maps.

Local Open Scope N_scope.
Local Open Scope list_scope.

(** ** Python strings *)

(** A [str] is a sequence of code points. *)
Abbreviation pystr := (list N) (only parsing).

(** String literals of the source are written as Rocq strings, which hold
    the UTF-8 bytes of the text, and decoded to code points. *)
Fixpoint utf8_decode (bs : list N) : pystr :=
  match bs with
  | [] => []
  | b :: r =>
      if b <? 128 then b :: utf8_decode r
      else if b <? 224 then
        match r with
        | c1 :: r1 => ((b mod 32) * 64 + c1 mod 64) :: utf8_decode r1
        | _ => []
        end
      else if b <? 240 then
        match r with
        | c1 :: c2 :: r2 =>
            ((b mod 16) * 4096 + (c1 mod 64) * 64 + c2 mod 64) :: utf8_decode r2
        | _ => []
        end
      else
        match r with
        | c1 :: c2 :: c3 :: r3 =>
            ((b mod 8) * 262144 + (c1 mod 64) * 4096 + (c2 mod 64) * 64 + c3 mod 64)
              :: utf8_decode r3
        | _ => []
        end
  end.

Definition py (s : string) : pystr :=
  utf8_decode (List.map N_of_ascii (list_ascii_of_string s)).
Arguments py s%_string.

(** [not s] for a [str]: true exactly on the empty string. *)
Definition py_not (s : pystr) : bool :=
  match s with
  | [] => true
  | _ :: _ => false
  end.

(** [str.isspace] on one code point: the characters [str.strip()] removes. *)
Definition py_isspace (c : N) : bool :=
  ((9 <=? c) && (c <=? 13))
  || ((28 <=? c) && (c <=? 32))
  || (c =? 133) || (c =? 160) || (c =? 5760)
  || ((8192 <=? c) && (c <=? 8202))
  || (c =? 8232) || (c =? 8233) || (c =? 8239) || (c =? 8287)
  || (c =? 12288).

(** [str.lstrip()], [str.rstrip()] and [str.strip()]. *)
Fixpoint lstrip (s : pystr) : pystr :=
  match s with
  | [] => []
  | c :: r => if py_isspace c then lstrip r else s
  end.

Fixpoint rstrip (s : pystr) : pystr :=
  match s with
  | [] => []
  | c :: r =>
      match rstrip r with
      | [] => if py_isspace c then [] else [c]
      | r' => c :: r'
      end
  end.

Definition strip (s : pystr) : pystr := rstrip (lstrip s).

(** ** Exceptions and chat messages *)

(** An exception is its class name and its message ([str(e)]). *)
Record PyException : Type := Exc { exc_class : pystr; exc_message : pystr }.

Definition ValueError (msg : pystr) : PyException := Exc (py "ValueError") msg.

(** [str(e)], as used by the f-string of the submit handler. *)
Definition py_str_exc (e : PyException) : pystr := exc_message e.

(** A computation that either raises or returns. *)
Inductive result (A : Type) : Type :=
| Raise (e : PyException)
| Return (a : A).
Arguments Raise {A} e.
Arguments Return {A} a.

(** The [type] tag of a LangChain message. *)
Inductive MessageType : Type := system | human | ai.

Record BaseMessage : Type := Msg { type : MessageType; content : pystr }.

Definition SystemMessage (c : pystr) : BaseMessage := Msg system c.
Definition HumanMessage (c : pystr) : BaseMessage := Msg human c.
Definition AIMessage (c : pystr) : BaseMessage := Msg ai c.

#[global] Instance MessageType_eq_dec : EqDecision MessageType.
Proof. solve_decision. Defined.

#[global] Instance BaseMessage_eq_dec : EqDecision BaseMessage.
Proof. solve_decision. Defined.

(** ** The role table *)

(** A Python [dict] literal whose iteration order is used (the radio
    options are [list(EXPERT_ROLES.keys())]): an association list. *)
Definition pydict : Type := list (pystr * pystr).

Fixpoint dict_lookup (d : pydict) (k : pystr) : option pystr :=
  match d with
  | [] => None
  | (k', v) :: d' => if decide (k' = k) then Some v else dict_lookup d' k
  end.

(** [d.get(k, dflt)]. *)
Definition dict_get (d : pydict) (k : pystr) (dflt : pystr) : pystr :=
  default dflt (dict_lookup d k).

(** [list(d.keys())]. *)
Definition dict_keys (d : pydict) : list pystr := d.*1.

Definition ROLE_QA : pystr := py "品質保証エンジニア（製造業）".
Definition ROLE_SALES : pystr := py "営業のプロ（B2B/B2C）".

Definition EXPERT_ROLES : pydict :=
  [ (ROLE_QA,
     py ("あなたは製造業の品質保証（QA）と統計的品質管理の専門家です。"
         ++ "工程能力(Cp/Cpk)、不良モード、FMEA、QC七つ道具、PDCAに精通し、"
         ++ "入力内容に対して根拠・手順・数式・注意点・現実的制約を併記しつつ、"
         ++ "再現可能な改善策とチェックリストを提示してください。"));
    (ROLE_SALES,
     py ("あなたはB2B/B2Cに精通した営業のプロです。"
         ++ "ヒアリング設計、課題深掘り（SPIN）、価値訴求（FABE/ベネフィット）、"
         ++ "差別化、反論処理、次アクション合意、クロージングまでを体系的に提案し、"
         ++ "トークスクリプト例・質問リスト・KPI/指標・テンプレを具体的に提示してください。"
         ++ "顧客セグメントや意思決定者/使用者の切り分けにも触れてください。")) ].

Definition MSG_UNKNOWN_ROLE : pystr := py "不明な専門家ロールが選択されました。".
Definition MSG_EMPTY_INPUT : pystr := py "入力テキストが空です。".

(** ** The prompt template *)

(** [ChatPromptTemplate.from_messages] with a system slot, a
    [MessagesPlaceholder] for the history and a human slot: formatting
    puts the two strings in their slots unchanged and splices the
    history messages in between, in order. *)
Definition prompt (system_message : pystr) (history : list BaseMessage)
    (input_text : pystr) : list BaseMessage :=
  [SystemMessage system_message] ++ history ++ [HumanMessage input_text].

(** ** The session state and the object heap *)

(** A reference to an [InMemoryChatMessageHistory] object. *)
Abbreviation loc := nat (only parsing).

(** [session_id] and [history_store] are the two entries of
    [st.session_state] once lines 60-63 have run; [heap] holds the
    [messages] list of every history object allocated so far, indexed by
    reference; [llm_log] records the requests handed to the model, oldest
    first. *)
Record World : Type := mkWorld {
  session_id : pystr;
  history_store : gmap pystr loc;
  heap : list (list BaseMessage);
  llm_log : list (list BaseMessage)
}.

Definition set_history_store (f : gmap pystr loc → gmap pystr loc) (w : World) : World :=
  mkWorld (session_id w) (f (history_store w)) (heap w) (llm_log w).

Definition set_heap (f : list (list BaseMessage) → list (list BaseMessage))
    (w : World) : World :=
  mkWorld (session_id w) (history_store w) (f (heap w)) (llm_log w).

Definition set_llm_log (f : list (list BaseMessage) → list (list BaseMessage))
    (w : World) : World :=
  mkWorld (session_id w) (history_store w) (heap w) (f (llm_log w)).

(** [hist.messages]: the list held by the object at [l]. *)
Definition messages (w : World) (l : loc) : list BaseMessage :=
  default [] (heap w !! l).

(** [hist.add_messages(ms)]: appends in place to the object at [l]. *)
Definition add_messages (l : loc) (ms : list BaseMessage) (w : World) : World :=
  set_heap (alter (λ old, old ++ ms) l) w.

(** [InMemoryChatMessageHistory()]: a fresh object with no messages. *)
Definition new_history (w : World) : loc * World :=
  (length (heap w), set_heap (λ h, h ++ [[]]) w).

(** [get_session_history], lines 66-70. *)
Definition get_session_history (sid : pystr) (w : World) : loc * World :=
  match history_store w !! sid with
  | Some l => (l, w)
  | None =>
      let '(l, w1) := new_history w in
      (l, set_history_store (insert sid l) w1)
  end.

(** ** The chain *)

(** The hosted model behind [ChatOpenAI]: any function from the request
    to an exception or to the text of the reply. *)
Definition LLM : Type := list BaseMessage → result pystr.

(** [base_chain = prompt | llm], line 57: format the prompt, call the
    model once, wrap its text in an [AIMessage]. *)
Definition base_chain (llm : LLM) (system_message : pystr)
    (history : list BaseMessage) (input_text : pystr) (w : World)
    : result BaseMessage * World :=
  let request := prompt system_message history input_text in
  let w1 := set_llm_log (λ log, log ++ [request]) w in
  match llm request with
  | Raise e => (Raise e, w1)
  | Return c => (Return (AIMessage c), w1)
  end.

(** [chain_with_history.invoke], lines 74-79.  [RunnableWithMessageHistory]
    calls the history factory with the configured session id, passes a copy
    of the object's messages under [history_messages_key], runs the wrapped
    chain and, only when that returns, adds the input (as a human message)
    and the output to the same history object. *)
Definition chain_with_history (llm : LLM) (system_message input_text : pystr)
    (sid : pystr) (w : World) : result BaseMessage * World :=
  let '(hist, w1) := get_session_history sid w in
  let history := messages w1 hist in
  match base_chain llm system_message history input_text w1 with
  | (Raise e, w2) => (Raise e, w2)
  | (Return out, w2) =>
      (Return out, add_messages hist [HumanMessage input_text; out] w2)
  end.

(** [ask_llm_once], lines 84-95. *)
Definition ask_llm_once (llm : LLM) (input_text role_key : pystr) (w : World)
    : result pystr * World :=
  let system_message := dict_get EXPERT_ROLES role_key [] in
  if py_not system_message then (Raise (ValueError MSG_UNKNOWN_ROLE), w)
  else if py_not input_text || py_not (strip input_text) then
    (Raise (ValueError MSG_EMPTY_INPUT), w)
  else
    match chain_with_history llm system_message (strip input_text) (session_id w) w with
    | (Raise e, w1) => (Raise e, w1)
    | (Return out, w1) => (Return (content out), w1)
    end.

(** ** The script *)

(** Where the API key can come from: the process environment, the parsed
    [.env] file (empty when there is none) and the secrets table ([None]
    when reading [st.secrets] raises). *)
Record Config : Type := mkConfig {
  environ : gmap pystr pystr;
  dotenv : gmap pystr pystr;
  secrets : option (gmap pystr pystr)
}.

Definition KEY_NAME : pystr := py "OPENAI_API_KEY".

Definition MSG_NO_KEY : pystr :=
  py "OPENAI_API_KEY が見つかりません。.env（ローカル）または Streamlit Secrets（Cloud）に設定してください。".

(** [load_dotenv()]: variables of [.env] are added to the environment,
    those already set are kept. *)
Definition load_dotenv (c : Config) : gmap pystr pystr := environ c ∪ dotenv c.

(** [not x] for an optional string: [None] and the empty string are false. *)
Definition py_not_opt (x : option pystr) : bool :=
  match x with
  | None => true
  | Some s => py_not s
  end.

(** Lines 15-22: the key after both sources have been tried. *)
Definition read_api_key (c : Config) : option pystr :=
  let OPENAI_API_KEY := load_dotenv c !! KEY_NAME in
  if py_not_opt OPENAI_API_KEY then
    match secrets c with
    | Some s =>
        match s !! KEY_NAME with
        | Some v => if py_not v then OPENAI_API_KEY else Some v
        | None => OPENAI_API_KEY
        end
    | None => OPENAI_API_KEY
    end
  else OPENAI_API_KEY.

(** What the page shows. *)
Inductive UI : Type :=
| st_title (s : pystr)
| st_about
| st_error (s : pystr)
| st_success (s : pystr)
| st_markdown (s : pystr)
| st_write (s : pystr)
| st_caption (s : pystr).

(** The widget values of one run of the script. *)
Record Widgets : Type := mkWidgets {
  role : pystr;
  user_text : pystr;
  submitted : bool;
  clear_clicked : bool
}.

(** How a run ends: at the last line, by [st.stop()] or by [st.rerun()]. *)
Inductive Control : Type := Finished | Stopped | Rerun.

Inductive Outcome : Type :=
| Halted (ui : list UI)
| Ran (c : Control) (ui : list UI) (w : World).

(** Lines 60-63: the two session entries are created when missing. *)
Definition init_session (sid : option pystr) (store : option (gmap pystr loc))
    (h log : list (list BaseMessage)) : World :=
  mkWorld (default (py "default") sid) (default ∅ store) h log.

(** [history_store.pop(sid, None)], line 130. *)
Definition pop_history (sid : pystr) (w : World) : World :=
  set_history_store (delete sid) w.

(** One line of the history expander, lines 139-140. *)
Definition render_message (m : BaseMessage) : UI :=
  let who := if decide (type m = human) then py "👤 User" else py "AI" in
  st_markdown (py "- **" ++ who ++ py "**: " ++ content m).

(** Lines 99-152: the page, for a process that has its key. *)
Definition page (llm : LLM) (wd : Widgets) (w : World) : Outcome :=
  let top := [st_title (py " LLM機能付きWebアプリ"); st_about] in
  if clear_clicked wd then
    Ran Rerun (top ++ [st_success (py "履歴をクリアしました。")])
        (pop_history (session_id w) w)
  else
    let '(h, w1) := get_session_history (session_id w) w in
    let hist := messages w1 h in
    let shown :=
      match hist with
      | [] => [st_caption (py "まだ履歴はありません。")]
      | _ :: _ => render_message <$> hist
      end in
    if submitted wd then
      match ask_llm_once llm (user_text wd) (role wd) w1 with
      | (Return answer, w2) =>
          Ran Finished
              (top ++ shown ++ [st_success (py "回答を取得しました。");
                                st_markdown (py "### ✅ 回答");
                                st_write answer]) w2
      | (Raise e, w2) =>
          Ran Finished
              (top ++ shown
                   ++ [st_error (py "エラーが発生しました：" ++ py_str_exc e)]) w2
      end
    else Ran Finished (top ++ shown) w1.

(** The whole script, run once. *)
Definition app (llm : LLM) (c : Config) (wd : Widgets)
    (sid : option pystr) (store : option (gmap pystr loc))
    (h log : list (list BaseMessage)) : Outcome :=
  if py_not_opt (read_api_key c) then Halted [st_error MSG_NO_KEY]
  else page llm wd (init_session sid store h log).

(** The history a caller sees for [sid]: [get_session_history(sid).messages],
    as line 136 reads it. *)
Definition list_history (sid : pystr) (w : World) : list BaseMessage :=
  let '(l, w1) := get_session_history sid w in messages w1 l.

(** In a world built by the program every stored reference points to an
    allocated object and no two session ids share one. *)
Record wf (w : World) : Prop := mk_wf {
  wf_valid : ∀ k l, history_store w !! k = Some l → (l < length (heap w))%nat;
  wf_inj : ∀ k1 k2 l,
    history_store w !! k1 = Some l → history_store w !! k2 = Some l → k1 = k2
}.

(** ** Sequences of calls *)

(** One call of [ask_llm_once] as the submit handler makes it: the text,
    the selected role and what the model does at that moment. *)
Record Turn : Type := mkTurn {
  turn_llm : LLM;
  turn_input : pystr;
  turn_role : pystr
}.

(** The calls of a list of turns, one after the other, on the same
    session state. *)
Fixpoint ask_llm_seq (ts : list Turn) (w : World)
    : list (result pystr) * World :=
  match ts with
  | [] => ([], w)
  | t :: ts' =>
      let '(r, w1) := ask_llm_once (turn_llm t) (turn_input t) (turn_role t) w in
      let '(rs, w2) := ask_llm_seq ts' w1 in
      (r :: rs, w2)
  end.

Definition is_Return {A : Type} (r : result A) : bool :=
  match r with
  | Return _ => true
  | Raise _ => false
  end.

(** What a call leaves in the history: the exchange when it returned,
    nothing when it raised. *)
Definition exchange (t : Turn) (r : result pystr) : list BaseMessage :=
  match r with
  | Return c => [HumanMessage (strip (turn_input t)); AIMessage c]
  | Raise _ => []
  end.

Fixpoint transcript (ts : list Turn) (rs : list (result pystr))
    : list BaseMessage :=
  match ts, rs with
  | t :: ts', r :: rs' => exchange t r ++ transcript ts' rs'
  | _, _ => []
  end.

(** The messages carry the tags [first], [second], [first], ... in turn. *)
Fixpoint alternates (first second : MessageType) (ms : list BaseMessage) : bool :=
  match ms with
  | [] => true
  | m :: r => bool_decide (type m = first) && alternates second first r
  end.

(** ** Reruns of the script *)

(** The lines that open every page. *)
Definition page_top : list UI :=
  [st_title (py " LLM機能付きWebアプリ"); st_about].

(** What the history expander shows for a list of messages, lines 137-142. *)
Definition history_view (hist : list BaseMessage) : list UI :=
  match hist with
  | [] => [st_caption (py "まだ履歴はありません。")]
  | _ :: _ => render_message <$> hist
  end.

(** The session state a run leaves to the next one. *)
Definition state_after (o : Outcome) (w : World) : World :=
  match o with
  | Ran _ _ w' => w'
  | Halted _ => w
  end.

(** Streamlit runs the script again at every interaction, on the session
    state the run before left.  A run is given by the values of its widgets
    and by what the model does during it. *)
Fixpoint reruns (rs : list (LLM * Widgets)) (w : World) : World :=
  match rs with
  | [] => w
  | (llm, wd) :: rs' => reruns rs' (state_after (page llm wd w) w)
  end.

(** The store holds no key but the current session id. *)
Definition single_session (w : World) : Prop :=
  ∀ k, is_Some (history_store w !! k) → k = session_id w.

(** A history of whole exchanges: human and assistant messages in turn,
    ending with an assistant message. *)
Definition exchanges (ms : list BaseMessage) : bool :=
  alternates human ai ms && Nat.even (length ms).

(** A request that reads as a conversation: one system message, then human
    and assistant messages in turn, the last one human. *)
Definition conversation (request : list BaseMessage) : bool :=
  match request with
  | [] => false
  | m :: rest =>
      bool_decide (type m = system)
      && alternates human ai rest && Nat.odd (length rest)
  end.

(** ** Worlds and models used in the examples *)

(** The first run of the script: no session entries yet, nothing allocated. *)
Definition w_fresh : World := init_session None None [] [].

(** A model that answers every request with the same text. *)
Definition llm_const (c : pystr) : LLM := λ _, Return c.

(** The exception of a request that timed out. *)
Definition TIMEOUT : PyException :=
  Exc (py "APITimeoutError") (py "Request timed out.").

(** A model whose request times out. *)
Definition llm_down : LLM := λ _, Raise TIMEOUT.

(** The instruction of the first role of the table. *)
Definition INSTR_QA : pystr := dict_get EXPERT_ROLES ROLE_QA [].

(** Three submissions: a reply, a timeout, a reply under the other role. *)
Definition three_turns : list Turn :=
  [ mkTurn (llm_const (py "r1")) (py "1") ROLE_QA;
    mkTurn llm_down (py "x") ROLE_QA;
    mkTurn (llm_const (py "r2")) (py " 2 ") ROLE_SALES ].

(** A state with two sessions, each with one exchange; the current one is
    ["default"]. *)
Definition w_two : World :=
  mkWorld (py "default")
          (<[py "default" := 0%nat]> (<[py "other" := 1%nat]> ∅))
          [ [HumanMessage (py "1"); AIMessage (py "r1")];
            [HumanMessage (py "a"); AIMessage (py "b")] ]
          [].

(** A machine with no key anywhere: nothing in the environment, no [.env]
    file, no secrets file. *)
Definition no_key_config : Config := mkConfig ∅ ∅ None.

(** The widgets when nothing has been clicked, when the submit button has
    and when the clear button has. *)
Definition idle (r t : pystr) : Widgets := mkWidgets r t false false.
Definition submit (r t : pystr) : Widgets := mkWidgets r t true false.
Definition clear (r t : pystr) : Widgets := mkWidgets r t false true.

(** Four runs: a submission that is answered, one that times out, a click
    on the clear button and the run that follows it. *)
Definition four_runs : list (LLM * Widgets) :=
  [ (llm_const (py "r1"), submit ROLE_QA (py " 1 "));
    (llm_down, submit ROLE_SALES (py "2"));
    (llm_down, clear ROLE_SALES (py "2"));
    (llm_down, idle ROLE_SALES (py "2")) ].

(** * Properties *)

(** ** [str.strip] *)

Example py_ascii : py "hi" = [104; 105].
Proof. reflexivity. Qed.

Example py_hiragana : py "あ" = [12354].
Proof. reflexivity. Qed.

Example py_emoji : py "👤" = [128100].
Proof. reflexivity. Qed.

Example strip_hi : strip (py "  hi  ") = py "hi".
Proof. reflexivity. Qed.

Example strip_inner : strip (py " a b ") = py "a b".
Proof. reflexivity. Qed.

Example strip_ideographic_space : strip (py "　") = [].
Proof. reflexivity. Qed.

Section Strip.
Implicit Types (s pre post : pystr) (c : N).

Lemma lstrip_nil s : lstrip s = [] ↔ forallb py_isspace s = true.
Proof.
  induction s as [|c r IH]; simpl; [done|].
  destruct (py_isspace c); simpl; [exact IH|].
  split; intros H; discriminate H.
Qed.

Lemma rstrip_nil s : rstrip s = [] ↔ forallb py_isspace s = true.
Proof.
  induction s as [|c r IH]; simpl; [done|].
  destruct (rstrip r) as [|d r'] eqn:Hr.
  - destruct (py_isspace c); simpl.
    + split; [intros _; by apply IH | done].
    + split; intros H; discriminate H.
  - split; [intros H; discriminate H|].
    intros [_ H]%andb_prop. apply IH in H. discriminate H.
Qed.

Lemma forallb_lstrip s :
  forallb py_isspace (lstrip s) = forallb py_isspace s.
Proof.
  induction s as [|c r IH]; simpl; [done|].
  destruct (py_isspace c) eqn:Hc; simpl; [exact IH|].
  by rewrite Hc.
Qed.

Lemma strip_nil s : strip s = [] ↔ forallb py_isspace s = true.
Proof. unfold strip. by rewrite rstrip_nil, forallb_lstrip. Qed.

Lemma lstrip_split s :
  ∃ pre, s = pre ++ lstrip s ∧ forallb py_isspace pre = true.
Proof.
  induction s as [|c r (pre & Hs & Hpre)]; simpl.
  - by exists [].
  - destruct (py_isspace c) eqn:Hc.
    + exists (c :: pre). simpl. rewrite Hc, Hpre. split; [|done].
      by rewrite <- Hs.
    + by exists [].
Qed.

Lemma rstrip_split s :
  ∃ post, s = rstrip s ++ post ∧ forallb py_isspace post = true.
Proof.
  induction s as [|c r (post & Hs & Hpost)]; simpl.
  - by exists [].
  - destruct (rstrip r) as [|d r'] eqn:Hr.
    + destruct (py_isspace c) eqn:Hc.
      * exists (c :: r). split; [done|]. simpl. rewrite Hc. simpl.
        by apply rstrip_nil.
      * exists post. split; [|done]. simpl. by rewrite Hs at 1.
    + exists post. split; [|done]. simpl. by rewrite Hs at 1.
Qed.

Lemma lstrip_head s c r : lstrip s = c :: r → py_isspace c = false.
Proof.
  induction s as [|d t IH]; simpl; [done|].
  destruct (py_isspace d) eqn:Hd; [exact IH|].
  intros [= <- _]. exact Hd.
Qed.

Lemma rstrip_head s c r : rstrip s = c :: r → head s = Some c.
Proof.
  destruct s as [|d t]; simpl; [done|].
  destruct (rstrip t); [destruct (py_isspace d)|]; intros [= -> _]; done.
Qed.

Lemma rstrip_last s c : last (rstrip s) = Some c → py_isspace c = false.
Proof.
  induction s as [|d t IH]; simpl; [done|].
  destruct (rstrip t) as [|e t'] eqn:Ht.
  - destruct (py_isspace d) eqn:Hd; simpl; [done|].
    intros [= <-]. exact Hd.
  - rewrite last_cons. destruct (last (e :: t')) eqn:Hl.
    + intros [= <-]. by apply IH.
    + apply last_None in Hl. discriminate Hl.
Qed.

(** [strip] removes a run of whitespace at each end and nothing else,
    and what is left neither starts nor ends with whitespace. *)
Lemma strip_spec s :
  ∃ pre post,
    s = pre ++ strip s ++ post
    ∧ forallb py_isspace pre = true
    ∧ forallb py_isspace post = true
    ∧ (∀ c, head (strip s) = Some c → py_isspace c = false)
    ∧ (∀ c, last (strip s) = Some c → py_isspace c = false).
Proof.
  destruct (lstrip_split s) as (pre & Hs & Hpre).
  destruct (rstrip_split (lstrip s)) as (post & Ht & Hpost).
  exists pre, post. unfold strip. repeat split; try done.
  - by rewrite <- Ht.
  - intros c Hc. destruct (rstrip (lstrip s)) as [|d r] eqn:Hr; [done|].
    injection Hc as ->. apply rstrip_head in Hr.
    destruct (lstrip s) as [|e t] eqn:Hl; [done|].
    injection Hr as ->. by eapply lstrip_head.
  - apply rstrip_last.
Qed.

(** The test of line 88 is a test on the stripped text alone. *)
Lemma empty_test s : py_not s || py_not (strip s) = py_not (strip s).
Proof. by destruct s. Qed.

Lemma py_not_true s : py_not s = true ↔ s = [].
Proof. by destruct s. Qed.

Lemma py_not_false s : py_not s = false ↔ s ≠ [].
Proof. by destruct s. Qed.
End Strip.

(** ** The store and the heap *)

Section Store.
Implicit Types (w : World) (sid k : pystr) (l : loc).
Implicit Types (h : list (list BaseMessage)) (ms : list BaseMessage).

Lemma lookup_alloc h l : default [] ((h ++ [[]]) !! l) = default [] (h !! l).
Proof.
  destruct (decide (l < length h)%nat) as [Hlt|Hge].
  - by rewrite lookup_app_l.
  - rewrite lookup_app_r by lia. rewrite (lookup_ge_None_2 h l) by lia.
    by destruct (l - length h)%nat as [|[|n]].
Qed.

Lemma get_session_history_Some sid w l :
  history_store w !! sid = Some l → get_session_history sid w = (l, w).
Proof. intros H. unfold get_session_history. by rewrite H. Qed.

Lemma get_session_history_None sid w :
  history_store w !! sid = None →
  get_session_history sid w =
    (length (heap w),
     mkWorld (session_id w) (<[sid := length (heap w)]> (history_store w))
             (heap w ++ [[]]) (llm_log w)).
Proof. intros H. unfold get_session_history. by rewrite H. Qed.

(** Reading the history of a session does not depend on the entry that
    the read itself may create. *)
Lemma list_history_lookup sid w :
  list_history sid w =
    match history_store w !! sid with
    | Some l => messages w l
    | None => []
    end.
Proof.
  unfold list_history.
  destruct (history_store w !! sid) as [l|] eqn:H.
  - by rewrite (get_session_history_Some _ _ _ H).
  - rewrite (get_session_history_None _ _ H). unfold messages. simpl.
    by rewrite list_lookup_middle.
Qed.

Lemma get_session_history_session_id sid w :
  session_id (get_session_history sid w).2 = session_id w.
Proof.
  unfold get_session_history. by destruct (history_store w !! sid).
Qed.

Lemma get_session_history_llm_log sid w :
  llm_log (get_session_history sid w).2 = llm_log w.
Proof.
  unfold get_session_history. by destruct (history_store w !! sid).
Qed.

(** After the call the key is bound to the returned reference. *)
Lemma get_session_history_bound sid w :
  history_store (get_session_history sid w).2 !! sid
  = Some (get_session_history sid w).1.
Proof.
  destruct (history_store w !! sid) as [l|] eqn:H.
  - by rewrite (get_session_history_Some _ _ _ H).
  - rewrite (get_session_history_None _ _ H). simpl. apply lookup_insert_eq.
Qed.

Lemma list_history_get k sid w :
  list_history k (get_session_history sid w).2 = list_history k w.
Proof.
  rewrite !list_history_lookup.
  destruct (history_store w !! sid) as [l|] eqn:H.
  - by rewrite (get_session_history_Some _ _ _ H).
  - rewrite (get_session_history_None _ _ H). simpl.
    destruct (decide (sid = k)) as [->|Hne].
    + rewrite lookup_insert_eq, H. unfold messages. simpl.
      by rewrite list_lookup_middle.
    + rewrite lookup_insert_ne by done.
      destruct (history_store w !! k); [|done].
      unfold messages. simpl. apply lookup_alloc.
Qed.

Lemma list_history_set_llm_log k f w :
  list_history k (set_llm_log f w) = list_history k w.
Proof. by rewrite !list_history_lookup. Qed.

Lemma wf_get_session_history sid w : wf w → wf (get_session_history sid w).2.
Proof.
  intros [Hv Hi].
  destruct (history_store w !! sid) as [l|] eqn:H.
  - by rewrite (get_session_history_Some _ _ _ H).
  - rewrite (get_session_history_None _ _ H). split; simpl.
    + intros k l. rewrite length_app. simpl.
      intros [[_ <-]|[_ Hk]]%lookup_insert_Some; [lia|].
      apply Hv in Hk. lia.
    + intros k1 k2 l.
      intros [[<- <-]|[Hn1 H1]]%lookup_insert_Some
             [[<- Hl]|[Hn2 H2]]%lookup_insert_Some; try done.
      * apply Hv in H2. lia.
      * apply Hv in H1. lia.
      * by eapply Hi.
Qed.

Lemma wf_set_llm_log f w : wf w → wf (set_llm_log f w).
Proof. intros [Hv Hi]. by split. Qed.

Lemma wf_add_messages l ms w : wf w → wf (add_messages l ms w).
Proof.
  intros [Hv Hi]. split; simpl; [|done].
  intros k l' Hk. rewrite length_alter. by eapply Hv.
Qed.

Lemma wf_pop_history sid w : wf w → wf (pop_history sid w).
Proof.
  intros [Hv Hi]. split; simpl.
  - intros k l [_ Hk]%lookup_delete_Some. by eapply Hv.
  - intros k1 k2 l [_ H1]%lookup_delete_Some [_ H2]%lookup_delete_Some.
    by eapply Hi.
Qed.

Lemma wf_init_session osid h log : wf (init_session osid None h log).
Proof. split; simpl; intros *; by rewrite lookup_empty. Qed.

(** Appending to the object of [sid] extends the history of [sid]. *)
Lemma list_history_add_messages_eq sid l ms w :
  wf w → history_store w !! sid = Some l →
  list_history sid (add_messages l ms w) = list_history sid w ++ ms.
Proof.
  intros [Hv _] H. rewrite !list_history_lookup. simpl. rewrite H.
  unfold messages. simpl. rewrite list_lookup_alter_eq.
  apply Hv in H. destruct (lookup_lt_is_Some_2 _ _ H) as [old Hold].
  by rewrite Hold.
Qed.

(** ... and leaves the history of every other session as it was. *)
Lemma list_history_add_messages_ne sid k l ms w :
  wf w → history_store w !! sid = Some l → k ≠ sid →
  list_history k (add_messages l ms w) = list_history k w.
Proof.
  intros [_ Hi] H Hne. rewrite !list_history_lookup. simpl.
  destruct (history_store w !! k) as [l'|] eqn:Hk; [|done].
  unfold messages. simpl. rewrite list_lookup_alter_ne; [done|].
  intros ->. apply Hne. by eapply Hi.
Qed.
End Store.

(** ** One call of [ask_llm_once] *)

Section AskOnce.
Variable llm : LLM.
Implicit Types (w : World) (input_text role_key instr : pystr).

(** Every instruction of the table passes the test of line 86. *)
Lemma EXPERT_ROLES_not_empty role_key instr :
  dict_lookup EXPERT_ROLES role_key = Some instr → py_not instr = false.
Proof.
  unfold EXPERT_ROLES. cbn [dict_lookup].
  repeat case_decide; intros [= <-]; by vm_compute.
Qed.

Lemma ask_llm_once_unknown input_text role_key w :
  dict_lookup EXPERT_ROLES role_key = None →
  ask_llm_once llm input_text role_key w
  = (Raise (ValueError MSG_UNKNOWN_ROLE), w).
Proof. intros H. unfold ask_llm_once, dict_get. by rewrite H. Qed.

Lemma ask_llm_once_empty input_text role_key instr w :
  dict_lookup EXPERT_ROLES role_key = Some instr →
  strip input_text = [] →
  ask_llm_once llm input_text role_key w
  = (Raise (ValueError MSG_EMPTY_INPUT), w).
Proof.
  intros H Hs. unfold ask_llm_once, dict_get. rewrite H. simpl.
  rewrite (EXPERT_ROLES_not_empty _ _ H), empty_test.
  by rewrite (proj2 (py_not_true _) Hs).
Qed.

(** With a known role and a text that is not blank the model is called
    once, on the prompt built from the history as it was before the call. *)
Lemma ask_llm_once_call input_text role_key instr w :
  dict_lookup EXPERT_ROLES role_key = Some instr →
  strip input_text ≠ [] →
  ask_llm_once llm input_text role_key w =
    let request :=
      prompt instr (list_history (session_id w) w) (strip input_text) in
    let w1 :=
      set_llm_log (λ log, log ++ [request])
                  (get_session_history (session_id w) w).2 in
    match llm request with
    | Raise e => (Raise e, w1)
    | Return c =>
        (Return c,
         add_messages (get_session_history (session_id w) w).1
                      [HumanMessage (strip input_text); AIMessage c] w1)
    end.
Proof.
  intros H Hs. unfold ask_llm_once, dict_get. rewrite H. simpl.
  rewrite (EXPERT_ROLES_not_empty _ _ H), empty_test.
  rewrite (proj2 (py_not_false _) Hs).
  unfold chain_with_history, list_history, base_chain.
  destruct (get_session_history (session_id w) w) as [l w1]. simpl.
  by destruct (llm _).
Qed.

Lemma ask_llm_once_session_id input_text role_key w :
  session_id (ask_llm_once llm input_text role_key w).2 = session_id w.
Proof.
  destruct (dict_lookup EXPERT_ROLES role_key) as [instr|] eqn:H.
  - destruct (decide (strip input_text = [])) as [Hs|Hs].
    + by rewrite (ask_llm_once_empty _ _ _ _ H Hs).
    + rewrite (ask_llm_once_call _ _ _ _ H Hs). cbv zeta.
      destruct (llm _); simpl; apply get_session_history_session_id.
  - by rewrite (ask_llm_once_unknown _ _ _ H).
Qed.

Lemma wf_ask_llm_once input_text role_key w :
  wf w → wf (ask_llm_once llm input_text role_key w).2.
Proof.
  intros Hw.
  destruct (dict_lookup EXPERT_ROLES role_key) as [instr|] eqn:H.
  - destruct (decide (strip input_text = [])) as [Hs|Hs].
    + by rewrite (ask_llm_once_empty _ _ _ _ H Hs).
    + rewrite (ask_llm_once_call _ _ _ _ H Hs). cbv zeta.
      destruct (llm _); simpl.
      * by apply wf_set_llm_log, wf_get_session_history.
      * by apply wf_add_messages, wf_set_llm_log, wf_get_session_history.
  - by rewrite (ask_llm_once_unknown _ _ _ H).
Qed.

(** A reply extends the history of the session by the exchange, ... *)
Lemma list_history_ask_llm_once_Return input_text role_key w c w' :
  wf w →
  ask_llm_once llm input_text role_key w = (Return c, w') →
  list_history (session_id w) w'
  = list_history (session_id w) w
      ++ [HumanMessage (strip input_text); AIMessage c].
Proof.
  intros Hw.
  destruct (dict_lookup EXPERT_ROLES role_key) as [instr|] eqn:H.
  - destruct (decide (strip input_text = [])) as [Hs|Hs].
    + by rewrite (ask_llm_once_empty _ _ _ _ H Hs).
    + rewrite (ask_llm_once_call _ _ _ _ H Hs). cbv zeta.
      destruct (llm _) as [e|c']; [done|]. intros [= -> <-].
      rewrite list_history_add_messages_eq.
      * by rewrite list_history_set_llm_log, list_history_get.
      * by apply wf_set_llm_log, wf_get_session_history.
      * apply get_session_history_bound.
  - by rewrite (ask_llm_once_unknown _ _ _ H).
Qed.

(** ... and a call never touches the history of another session. *)
Lemma list_history_ask_llm_once_other input_text role_key w k :
  wf w → k ≠ session_id w →
  list_history k (ask_llm_once llm input_text role_key w).2
  = list_history k w.
Proof.
  intros Hw Hk.
  destruct (dict_lookup EXPERT_ROLES role_key) as [instr|] eqn:H.
  - destruct (decide (strip input_text = [])) as [Hs|Hs].
    + by rewrite (ask_llm_once_empty _ _ _ _ H Hs).
    + rewrite (ask_llm_once_call _ _ _ _ H Hs). cbv zeta.
      destruct (llm _) as [e|c']; simpl.
      * by rewrite list_history_set_llm_log, list_history_get.
      * rewrite (list_history_add_messages_ne (session_id w)); try done.
        -- by rewrite list_history_set_llm_log, list_history_get.
        -- by apply wf_set_llm_log, wf_get_session_history.
        -- apply get_session_history_bound.
  - by rewrite (ask_llm_once_unknown _ _ _ H).
Qed.
End AskOnce.

(** ** Requests *)

Lemma lookup_ROLE_QA : dict_lookup EXPERT_ROLES ROLE_QA = Some INSTR_QA.
Proof. by vm_compute. Qed.

Lemma lookup_nonexistent_role :
  dict_lookup EXPERT_ROLES (py "nonexistent-role") = None.
Proof. by vm_compute. Qed.

Lemma wf_w_fresh : wf w_fresh.
Proof. apply wf_init_session. Qed.

Section Requests.
Variable llm : LLM.
Implicit Types (w : World) (input_text role_key instr : pystr).

Lemma ask_llm_once_llm_log input_text role_key instr w :
  dict_lookup EXPERT_ROLES role_key = Some instr →
  strip input_text ≠ [] →
  llm_log (ask_llm_once llm input_text role_key w).2
  = llm_log w
      ++ [prompt instr (list_history (session_id w) w) (strip input_text)].
Proof.
  intros H Hs. rewrite (ask_llm_once_call _ _ _ _ _ H Hs). cbv zeta.
  destruct (llm _); simpl; by rewrite get_session_history_llm_log.
Qed.

Lemma ask_llm_once_result input_text role_key instr w :
  dict_lookup EXPERT_ROLES role_key = Some instr →
  strip input_text ≠ [] →
  (ask_llm_once llm input_text role_key w).1
  = llm (prompt instr (list_history (session_id w) w) (strip input_text)).
Proof.
  intros H Hs. rewrite (ask_llm_once_call _ _ _ _ _ H Hs). cbv zeta.
  by destruct (llm _).
Qed.

Lemma blank_iff_strip_nil input_text :
  forallb py_isspace input_text = false ↔ strip input_text ≠ [].
Proof.
  rewrite strip_nil. by destruct (forallb py_isspace input_text).
Qed.
End Requests.

(** C3. With a known role and a text that is not blank, the request handed
    to the model is the system message holding the role's instruction, then
    the messages of the session's history as it stood before the call, in
    stored order and with their own role tags, then one human message
    holding the stripped text; the call returns or raises what the model
    does on exactly that request. *)
Theorem request_is_system_history_input
    (llm : LLM) (input_text role_key instr : pystr) (w : World) :
  dict_lookup EXPERT_ROLES role_key = Some instr →
  strip input_text ≠ [] →
  let request :=
    [SystemMessage instr]
      ++ list_history (session_id w) w
      ++ [HumanMessage (strip input_text)] in
  llm_log (ask_llm_once llm input_text role_key w).2 = llm_log w ++ [request]
  ∧ (ask_llm_once llm input_text role_key w).1 = llm request.
Proof.
  intros H Hs. cbv zeta. split.
  - exact (ask_llm_once_llm_log llm _ _ _ _ H Hs).
  - exact (ask_llm_once_result llm _ _ _ _ H Hs).
Qed.

Lemma request_is_system_history_input_witness :
  dict_lookup EXPERT_ROLES ROLE_QA = Some INSTR_QA
  ∧ strip (py " 1 ") ≠ []
  ∧ llm_log (ask_llm_once (llm_const (py "r1")) (py " 1 ") ROLE_QA w_fresh).2
    = llm_log w_fresh
        ++ [[SystemMessage INSTR_QA]
              ++ list_history (session_id w_fresh) w_fresh
              ++ [HumanMessage (strip (py " 1 "))]]
  ∧ (ask_llm_once (llm_const (py "r1")) (py " 1 ") ROLE_QA w_fresh).1
    = llm_const (py "r1")
        ([SystemMessage INSTR_QA]
           ++ list_history (session_id w_fresh) w_fresh
           ++ [HumanMessage (strip (py " 1 "))]).
Proof.
  split; [exact lookup_ROLE_QA|].
  split; [by vm_compute|].
  apply (request_is_system_history_input
           (llm_const (py "r1")) (py " 1 ") ROLE_QA INSTR_QA w_fresh).
  - exact lookup_ROLE_QA.
  - by vm_compute.
Defined.

(** The scenario of the specification: after the exchange ["1"], ["r1"],
    the request for ["2"] is system, human 1, assistant r1, human 2. *)
Example second_request_includes_first_exchange :
  let w1 := (ask_llm_once (llm_const (py "r1")) (py "1") ROLE_QA w_fresh).2 in
  let w2 := (ask_llm_once (llm_const (py "r2")) (py "2") ROLE_QA w1).2 in
  last (llm_log w2)
  = Some [SystemMessage INSTR_QA; HumanMessage (py "1");
          AIMessage (py "r1"); HumanMessage (py "2")].
Proof. by vm_compute. Qed.

(** C4. With a known role, the call raises the empty-input error and
    leaves the world alone exactly when the text is empty or all
    whitespace; otherwise the request ends with a human message holding the
    text without its leading and trailing whitespace. *)
Theorem blank_input_rejected_else_trimmed
    (llm : LLM) (input_text role_key instr : pystr) (w : World) :
  dict_lookup EXPERT_ROLES role_key = Some instr →
  (forallb py_isspace input_text = true
   ↔ ask_llm_once llm input_text role_key w
     = (Raise (ValueError MSG_EMPTY_INPUT), w))
  ∧ (forallb py_isspace input_text = false →
     ∃ before,
       llm_log (ask_llm_once llm input_text role_key w).2
       = llm_log w ++ [before ++ [HumanMessage (strip input_text)]])
  ∧ (∃ pre post,
       input_text = pre ++ strip input_text ++ post
       ∧ forallb py_isspace pre = true
       ∧ forallb py_isspace post = true
       ∧ (∀ c, head (strip input_text) = Some c → py_isspace c = false)
       ∧ (∀ c, last (strip input_text) = Some c → py_isspace c = false)).
Proof.
  intros H. split; [|split].
  - split.
    + intros Hb. apply strip_nil in Hb. by apply ask_llm_once_empty with instr.
    + intros Hr. destruct (forallb py_isspace input_text) eqn:Hb; [done|].
      apply blank_iff_strip_nil in Hb.
      pose proof (ask_llm_once_llm_log llm _ _ _ w H Hb) as Hlog.
      rewrite Hr in Hlog. simpl in Hlog.
      apply (f_equal length) in Hlog. rewrite length_app in Hlog.
      simpl in Hlog. lia.
  - intros Hb. apply blank_iff_strip_nil in Hb.
    exists ([SystemMessage instr] ++ list_history (session_id w) w).
    rewrite (ask_llm_once_llm_log llm _ _ _ w H Hb). unfold prompt.
    by rewrite <- app_assoc.
  - apply strip_spec.
Qed.

Lemma blank_input_rejected_else_trimmed_witness :
  dict_lookup EXPERT_ROLES ROLE_QA = Some INSTR_QA
  ∧ ((forallb py_isspace (py "  hi  ") = true
      ↔ ask_llm_once llm_down (py "  hi  ") ROLE_QA w_fresh
        = (Raise (ValueError MSG_EMPTY_INPUT), w_fresh))
     ∧ (forallb py_isspace (py "  hi  ") = false →
        ∃ before,
          llm_log (ask_llm_once llm_down (py "  hi  ") ROLE_QA w_fresh).2
          = llm_log w_fresh ++ [before ++ [HumanMessage (strip (py "  hi  "))]])
     ∧ (∃ pre post,
          py "  hi  " = pre ++ strip (py "  hi  ") ++ post
          ∧ forallb py_isspace pre = true
          ∧ forallb py_isspace post = true
          ∧ (∀ c, head (strip (py "  hi  ")) = Some c → py_isspace c = false)
          ∧ (∀ c, last (strip (py "  hi  ")) = Some c → py_isspace c = false))).
Proof.
  split; [exact lookup_ROLE_QA|].
  exact (blank_input_rejected_else_trimmed
           llm_down (py "  hi  ") ROLE_QA INSTR_QA w_fresh lookup_ROLE_QA).
Defined.

(** The two inputs of the specification: blank text is refused, and
    ["  hi  "] reaches the model as ["hi"]. *)
Example blank_text_is_refused :
  ask_llm_once llm_down (py "  ") ROLE_QA w_fresh
  = (Raise (ValueError MSG_EMPTY_INPUT), w_fresh).
Proof. by vm_compute. Qed.

Example padded_text_is_sent_trimmed :
  last (llm_log (ask_llm_once llm_down (py "  hi  ") ROLE_QA w_fresh).2)
  = Some [SystemMessage INSTR_QA; HumanMessage (py "hi")].
Proof. by vm_compute. Qed.

(** ** Role resolution and the order of the checks *)

Lemma unknown_and_empty_differ :
  ValueError MSG_UNKNOWN_ROLE ≠ ValueError MSG_EMPTY_INPUT.
Proof. by vm_compute. Qed.

(** C5. A role key that is not in the table makes the call raise the
    unknown-role error, whatever the text, and nothing is put in its place;
    a key of the table yields its own instruction, which passes the test of
    line 86 and, when the text is not blank, reaches the model unchanged as
    the system message of the request. *)
Theorem role_resolution
    (llm : LLM) (input_text role_key : pystr) (w : World) :
  (dict_lookup EXPERT_ROLES role_key = None →
   ask_llm_once llm input_text role_key w
   = (Raise (ValueError MSG_UNKNOWN_ROLE), w))
  ∧ (∀ instr,
       dict_lookup EXPERT_ROLES role_key = Some instr →
       dict_get EXPERT_ROLES role_key [] = instr
       ∧ py_not instr = false
       ∧ (strip input_text = [] →
          ask_llm_once llm input_text role_key w
          = (Raise (ValueError MSG_EMPTY_INPUT), w))
       ∧ (strip input_text ≠ [] →
          ∃ rest,
            llm_log (ask_llm_once llm input_text role_key w).2
            = llm_log w ++ [SystemMessage instr :: rest]
            ∧ (ask_llm_once llm input_text role_key w).1
              = llm (SystemMessage instr :: rest))).
Proof.
  split.
  - apply ask_llm_once_unknown.
  - intros instr H. repeat split.
    + unfold dict_get. by rewrite H.
    + by apply EXPERT_ROLES_not_empty with role_key.
    + intros Hs. by apply ask_llm_once_empty with instr.
    + intros Hs.
      exists (list_history (session_id w) w ++ [HumanMessage (strip input_text)]).
      split.
      * exact (ask_llm_once_llm_log llm _ _ _ w H Hs).
      * exact (ask_llm_once_result llm _ _ _ w H Hs).
Qed.

(** The table has exactly the two roles of the source, in their order. *)
Example EXPERT_ROLES_keys : dict_keys EXPERT_ROLES = [ROLE_QA; ROLE_SALES].
Proof. reflexivity. Qed.

Example nonexistent_role_is_refused :
  ask_llm_once (llm_const (py "r")) (py "hi") (py "nonexistent-role") w_fresh
  = (Raise (ValueError MSG_UNKNOWN_ROLE), w_fresh).
Proof. by vm_compute. Qed.

(** C10. When the role key is unknown the unknown-role error is raised even
    if the text is blank as well, so the role is checked first; the two
    errors are different values; and whenever the role is unknown or the
    text is blank the world is returned as it was, with no request added to
    the log of the model. *)
Theorem role_error_precedes_empty_input
    (llm : LLM) (input_text role_key : pystr) (w : World) :
  (dict_lookup EXPERT_ROLES role_key = None →
   forallb py_isspace input_text = true →
   ask_llm_once llm input_text role_key w
   = (Raise (ValueError MSG_UNKNOWN_ROLE), w))
  ∧ ValueError MSG_UNKNOWN_ROLE ≠ ValueError MSG_EMPTY_INPUT
  ∧ (dict_lookup EXPERT_ROLES role_key = None
     ∨ forallb py_isspace input_text = true →
     (∃ msg, (ask_llm_once llm input_text role_key w).1 = Raise (ValueError msg))
     ∧ (ask_llm_once llm input_text role_key w).2 = w
     ∧ llm_log (ask_llm_once llm input_text role_key w).2 = llm_log w).
Proof.
  split; [|split].
  - intros H _. by apply ask_llm_once_unknown.
  - exact unknown_and_empty_differ.
  - intros Hor.
    destruct (dict_lookup EXPERT_ROLES role_key) as [instr|] eqn:H.
    + destruct Hor as [Hn|Hb]; [done|]. apply strip_nil in Hb.
      rewrite (ask_llm_once_empty llm _ _ _ w H Hb). simpl. eauto.
    + rewrite (ask_llm_once_unknown llm _ _ w H). simpl. eauto.
Qed.

Example unknown_role_and_blank_text :
  ask_llm_once (llm_const (py "r")) (py "  ") (py "nonexistent-role") w_fresh
  = (Raise (ValueError MSG_UNKNOWN_ROLE), w_fresh).
Proof. by vm_compute. Qed.

(** ** Calls that raise *)

Section Failure.
Variable llm : LLM.
Implicit Types (w : World) (input_text role_key instr : pystr).
Implicit Types (e : PyException).

(** Which exception a call raises, and the world it leaves. *)
Lemma ask_llm_once_Raise input_text role_key w e w' :
  ask_llm_once llm input_text role_key w = (Raise e, w') →
  match dict_lookup EXPERT_ROLES role_key with
  | None => e = ValueError MSG_UNKNOWN_ROLE ∧ w' = w
  | Some instr =>
      if decide (strip input_text = []) then
        e = ValueError MSG_EMPTY_INPUT ∧ w' = w
      else
        let request :=
          prompt instr (list_history (session_id w) w) (strip input_text) in
        llm request = Raise e
        ∧ w' = set_llm_log (λ log, log ++ [request])
                           (get_session_history (session_id w) w).2
  end.
Proof.
  destruct (dict_lookup EXPERT_ROLES role_key) as [instr|] eqn:H.
  - destruct (decide (strip input_text = [])) as [Hs|Hs].
    + rewrite (ask_llm_once_empty _ _ _ _ _ H Hs). by intros [= <- <-].
    + rewrite (ask_llm_once_call _ _ _ _ _ H Hs). cbv zeta.
      destruct (llm _) as [e'|c]; [|done]. by intros [= <- <-].
  - rewrite (ask_llm_once_unknown _ _ _ _ H). by intros [= <- <-].
Qed.

(** A call that raises leaves the listed history of every session as it
    was. *)
Lemma list_history_ask_llm_once_Raise input_text role_key w e w' k :
  ask_llm_once llm input_text role_key w = (Raise e, w') →
  list_history k w' = list_history k w.
Proof.
  intros Hr. apply ask_llm_once_Raise in Hr.
  destruct (dict_lookup EXPERT_ROLES role_key) as [instr|].
  - destruct (decide (strip input_text = [])).
    + by destruct Hr as [_ ->].
    + destruct Hr as [_ ->].
      by rewrite list_history_set_llm_log, list_history_get.
  - by destruct Hr as [_ ->].
Qed.

(** When the session already has its entry, neither the store nor any
    history object changes. *)
Lemma ask_llm_once_Raise_store input_text role_key w e w' :
  ask_llm_once llm input_text role_key w = (Raise e, w') →
  is_Some (history_store w !! session_id w) →
  history_store w' = history_store w ∧ heap w' = heap w.
Proof.
  intros Hr [l Hl]. apply ask_llm_once_Raise in Hr.
  destruct (dict_lookup EXPERT_ROLES role_key) as [instr|].
  - destruct (decide (strip input_text = [])).
    + by destruct Hr as [_ ->].
    + destruct Hr as [_ ->].
      by rewrite (get_session_history_Some _ _ _ Hl).
  - by destruct Hr as [_ ->].
Qed.

(** When it has none, a call that reaches the model creates it. *)
Lemma ask_llm_once_Raise_alloc input_text role_key instr w e w' :
  ask_llm_once llm input_text role_key w = (Raise e, w') →
  dict_lookup EXPERT_ROLES role_key = Some instr →
  strip input_text ≠ [] →
  history_store w !! session_id w = None →
  history_store w' = <[session_id w := length (heap w)]> (history_store w)
  ∧ heap w' = heap w ++ [[]].
Proof.
  intros Hr H Hs Hn. apply ask_llm_once_Raise in Hr. rewrite H in Hr.
  destruct (decide (strip input_text = [])); [done|].
  destruct Hr as [_ ->]. by rewrite (get_session_history_None _ _ Hn).
Qed.
End Failure.

(** The submit handler runs after the history expander has read the
    session's history, so its call finds the entry in the store. *)
Lemma page_submit_entry (w : World) :
  is_Some (history_store (get_session_history (session_id w) w).2
             !! session_id (get_session_history (session_id w) w).2).
Proof.
  rewrite get_session_history_session_id, get_session_history_bound. eauto.
Qed.

(** On the first run of the script the store is empty; a call of
    [ask_llm_once] whose request times out raises the timeout unchanged,
    and the store holds an entry for the session afterwards. *)
Lemma failed_first_call_adds_store_entry :
  ask_llm_once llm_down (py "hi") ROLE_QA w_fresh
  = (Raise TIMEOUT,
     mkWorld (py "default") {[ py "default" := 0%nat ]} [[]]
             [[SystemMessage INSTR_QA; HumanMessage (py "hi")]])
  ∧ history_store w_fresh !! py "default" = None
  ∧ history_store (ask_llm_once llm_down (py "hi") ROLE_QA w_fresh).2
      !! py "default" = Some 0%nat
  ∧ heap w_fresh = []
  ∧ heap (ask_llm_once llm_down (py "hi") ROLE_QA w_fresh).2 = [[]].
Proof. by vm_compute. Qed.

(** X14. A call that raises leaves the listed history of every session as
    it was, so no part of the turn is recorded; it raises the unknown-role
    error, the empty-input error or exactly the exception of the model;
    when the session has an entry in the store, as at the call of the
    submit handler, the store and the history objects are the same as
    before the call; when it has none and the model was reached, the store
    has gained an entry bound to a new empty history. *)
Theorem failed_call_records_no_turn
    (llm : LLM) (input_text role_key : pystr) (w w' : World)
    (e : PyException) :
  ask_llm_once llm input_text role_key w = (Raise e, w') →
  (∀ k, list_history k w' = list_history k w)
  ∧ (is_Some (history_store w !! session_id w) →
     history_store w' = history_store w ∧ heap w' = heap w)
  ∧ match dict_lookup EXPERT_ROLES role_key with
    | None => e = ValueError MSG_UNKNOWN_ROLE ∧ w' = w
    | Some instr =>
        if decide (strip input_text = []) then
          e = ValueError MSG_EMPTY_INPUT ∧ w' = w
        else
          llm (prompt instr (list_history (session_id w) w) (strip input_text))
          = Raise e
          ∧ (history_store w !! session_id w = None →
             history_store w'
             = <[session_id w := length (heap w)]> (history_store w)
             ∧ heap w' = heap w ++ [[]])
    end.
Proof.
  intros Hr. split; [|split].
  - intros k. by eapply list_history_ask_llm_once_Raise.
  - by eapply ask_llm_once_Raise_store.
  - pose proof (ask_llm_once_Raise _ _ _ _ _ _ Hr) as Hc.
    destruct (dict_lookup EXPERT_ROLES role_key) as [instr|] eqn:H; [|done].
    destruct (decide (strip input_text = [])) as [Hs|Hs]; [done|].
    destruct Hc as [He _]. split; [done|].
    intros Hn. by eapply ask_llm_once_Raise_alloc.
Qed.

Lemma failed_call_records_no_turn_witness :
  ask_llm_once llm_down (py "hi") ROLE_QA w_two
  = (Raise TIMEOUT, (ask_llm_once llm_down (py "hi") ROLE_QA w_two).2)
  ∧ (∀ k, list_history k (ask_llm_once llm_down (py "hi") ROLE_QA w_two).2
          = list_history k w_two)
  ∧ (is_Some (history_store w_two !! session_id w_two) →
     history_store (ask_llm_once llm_down (py "hi") ROLE_QA w_two).2
     = history_store w_two
     ∧ heap (ask_llm_once llm_down (py "hi") ROLE_QA w_two).2 = heap w_two)
  ∧ match dict_lookup EXPERT_ROLES ROLE_QA with
    | None =>
        TIMEOUT = ValueError MSG_UNKNOWN_ROLE
        ∧ (ask_llm_once llm_down (py "hi") ROLE_QA w_two).2 = w_two
    | Some instr =>
        if decide (strip (py "hi") = []) then
          TIMEOUT = ValueError MSG_EMPTY_INPUT
          ∧ (ask_llm_once llm_down (py "hi") ROLE_QA w_two).2 = w_two
        else
          llm_down
            (prompt instr (list_history (session_id w_two) w_two)
                    (strip (py "hi")))
          = Raise TIMEOUT
          ∧ (history_store w_two !! session_id w_two = None →
             history_store (ask_llm_once llm_down (py "hi") ROLE_QA w_two).2
             = <[session_id w_two := length (heap w_two)]>
                 (history_store w_two)
             ∧ heap (ask_llm_once llm_down (py "hi") ROLE_QA w_two).2
               = heap w_two ++ [[]])
    end.
Proof.
  split; [by vm_compute|].
  apply (failed_call_records_no_turn llm_down (py "hi") ROLE_QA w_two).
  by vm_compute.
Defined.

(** ** The text reaches the call only through [strip] *)

Section Stripped.
Implicit Types (s : pystr) (c : N).

Lemma lstrip_id s :
  (∀ c, head s = Some c → py_isspace c = false) → lstrip s = s.
Proof.
  destruct s as [|c r]; simpl; [done|]. intros H. by rewrite (H c).
Qed.

Lemma rstrip_id s :
  (∀ c, last s = Some c → py_isspace c = false) → rstrip s = s.
Proof.
  induction s as [|c r IH]; simpl; [done|]. intros H.
  destruct r as [|d r'].
  - simpl. by rewrite (H c).
  - rewrite IH; [done|]. intros e He. apply H. by rewrite last_cons, He.
Qed.

(** Stripping a stripped text changes nothing. *)
Lemma strip_strip s : strip (strip s) = strip s.
Proof.
  destruct (strip_spec s) as (pre & post & _ & _ & _ & Hh & Hl).
  unfold strip at 1. rewrite (lstrip_id _ Hh). by apply rstrip_id.
Qed.
End Stripped.

(** X1. [ask_llm_once] depends on the text only through its stripped
    form: called on the text already stripped it returns or raises the same
    and leaves the same world. *)
Theorem ask_llm_once_strip
    (llm : LLM) (input_text role_key : pystr) (w : World) :
  ask_llm_once llm (strip input_text) role_key w
  = ask_llm_once llm input_text role_key w.
Proof.
  unfold ask_llm_once.
  destruct (py_not (dict_get EXPERT_ROLES role_key [])); [done|].
  by rewrite !empty_test, strip_strip.
Qed.

(** ** The key check *)

Section KeyCheck.
Implicit Types (c : Config) (v : pystr).

Lemma py_not_opt_false (x : option pystr) :
  py_not_opt x = false ↔ ∃ v, x = Some v ∧ v ≠ [].
Proof.
  destruct x as [[|a v]|]; simpl; split; try done.
  - by intros (v & [= <-] & Hv).
  - intros _. by eexists.
  - by intros (v & [=] & _).
Qed.

Lemma read_api_key_env c v :
  load_dotenv c !! KEY_NAME = Some v → v ≠ [] → read_api_key c = Some v.
Proof.
  intros H Hv. unfold read_api_key. rewrite H. simpl.
  by rewrite (proj2 (py_not_false v) Hv).
Qed.

Lemma read_api_key_secrets c s v :
  py_not_opt (load_dotenv c !! KEY_NAME) = true →
  secrets c = Some s → s !! KEY_NAME = Some v → v ≠ [] →
  read_api_key c = Some v.
Proof.
  intros H Hs Hk Hv. unfold read_api_key. rewrite H, Hs, Hk.
  by rewrite (proj2 (py_not_false v) Hv).
Qed.

(** The key check fails exactly when both sources fail. *)
Lemma py_not_opt_read_api_key c :
  py_not_opt (read_api_key c)
  = py_not_opt (load_dotenv c !! KEY_NAME)
    && match secrets c with
       | Some s => py_not_opt (s !! KEY_NAME)
       | None => true
       end.
Proof.
  unfold read_api_key.
  destruct (py_not_opt (load_dotenv c !! KEY_NAME)) eqn:He; simpl.
  - destruct (secrets c) as [s|]; [|done].
    destruct (s !! KEY_NAME) as [v|]; [|done]. simpl.
    destruct (py_not v) eqn:Hv; [done|]. simpl. exact Hv.
  - exact He.
Qed.
End KeyCheck.

(** X2. The script stops at the key check, showing only the message that
    the key was not found, exactly when the environment (with the [.env]
    file loaded) has no key or an empty one and the secrets have none, an
    empty one or cannot be read; in every other case it runs the page,
    which never stops the script by itself. *)
Theorem startup_stops_exactly_without_key
    (llm : LLM) (c : Config) (wd : Widgets)
    (sid : option pystr) (store : option (gmap pystr loc))
    (h log : list (list BaseMessage)) :
  app llm c wd sid store h log
  = (if py_not_opt (load_dotenv c !! KEY_NAME)
        && match secrets c with
           | Some s => py_not_opt (s !! KEY_NAME)
           | None => true
           end
     then Halted [st_error MSG_NO_KEY]
     else page llm wd (init_session sid store h log))
  ∧ (∀ w, ∃ ctl ui w', page llm wd w = Ran ctl ui w' ∧ ctl ≠ Stopped).
Proof.
  split.
  - unfold app. by rewrite py_not_opt_read_api_key.
  - intros w. unfold page. destruct (clear_clicked wd); [by eauto|].
    destruct (get_session_history (session_id w) w) as [l w1].
    destruct (submitted wd); [|by eauto].
    destruct (ask_llm_once llm (user_text wd) (role wd) w1) as [[e|a] w2];
      by eauto.
Qed.

(** X3. Which key is used.  A variable of the process environment hides
    the one of the [.env] file, even when it is empty; a key of the
    environment that is not empty is used whatever the secrets hold and
    whether or not they can be read; the secrets are used when the
    environment gives none or an empty one; and when the secrets cannot be
    read the environment's value stands. *)
Theorem api_key_precedence (c : Config) :
  (∀ v, environ c !! KEY_NAME = Some v → load_dotenv c !! KEY_NAME = Some v)
  ∧ (environ c !! KEY_NAME = None →
     load_dotenv c !! KEY_NAME = dotenv c !! KEY_NAME)
  ∧ (∀ v, load_dotenv c !! KEY_NAME = Some v → v ≠ [] →
       read_api_key c = Some v)
  ∧ (py_not_opt (load_dotenv c !! KEY_NAME) = true →
     ∀ s v, secrets c = Some s → s !! KEY_NAME = Some v → v ≠ [] →
            read_api_key c = Some v)
  ∧ (secrets c = None → read_api_key c = load_dotenv c !! KEY_NAME).
Proof.
  repeat split.
  - intros v H. unfold load_dotenv. by apply lookup_union_Some_l.
  - intros H. unfold load_dotenv. by apply lookup_union_r.
  - apply read_api_key_env.
  - intros H s v. by apply read_api_key_secrets.
  - intros Hs. unfold read_api_key. rewrite Hs.
    by destruct (py_not_opt _).
Qed.

Example environment_key_wins :
  read_api_key
    (mkConfig {[ KEY_NAME := py "sk-env" ]} {[ KEY_NAME := py "sk-dotenv" ]}
              (Some {[ KEY_NAME := py "sk-secret" ]}))
  = Some (py "sk-env").
Proof. by vm_compute. Qed.

Example empty_environment_key_hides_dotenv :
  app llm_down
      (mkConfig {[ KEY_NAME := [] ]} {[ KEY_NAME := py "sk-dotenv" ]} None)
      (idle ROLE_QA []) None None [] []
  = Halted [st_error MSG_NO_KEY].
Proof. by vm_compute. Qed.

(** ** Runs of the page *)

Section Page.
Variable llm : LLM.
Implicit Types (w : World) (wd : Widgets).

(** The page, with the history it shows read through [list_history]. *)
Lemma page_eq wd w :
  page llm wd w =
    if clear_clicked wd then
      Ran Rerun (page_top ++ [st_success (py "履歴をクリアしました。")])
          (pop_history (session_id w) w)
    else
      let w1 := (get_session_history (session_id w) w).2 in
      let shown := history_view (list_history (session_id w) w) in
      if submitted wd then
        match ask_llm_once llm (user_text wd) (role wd) w1 with
        | (Return answer, w2) =>
            Ran Finished
                (page_top ++ shown
                   ++ [st_success (py "回答を取得しました。");
                       st_markdown (py "### ✅ 回答");
                       st_write answer]) w2
        | (Raise e, w2) =>
            Ran Finished
                (page_top ++ shown
                   ++ [st_error (py "エラーが発生しました：" ++ py_str_exc e)])
                w2
        end
      else Ran Finished (page_top ++ shown) w1.
Proof.
  unfold page, list_history, history_view, page_top.
  destruct (clear_clicked wd); [done|].
  by destruct (get_session_history (session_id w) w) as [l w1].
Qed.

(** The session state a run leaves. *)
Lemma state_after_page wd w :
  state_after (page llm wd w) w =
    if clear_clicked wd then pop_history (session_id w) w
    else if submitted wd then
      (ask_llm_once llm (user_text wd) (role wd)
                    (get_session_history (session_id w) w).2).2
    else (get_session_history (session_id w) w).2.
Proof.
  rewrite page_eq. destruct (clear_clicked wd); [done|]. cbv zeta.
  destruct (submitted wd); [|done].
  by destruct (ask_llm_once _ _ _ _) as [[e|a] w2].
Qed.

Lemma session_id_state_after_page wd w :
  session_id (state_after (page llm wd w) w) = session_id w.
Proof.
  rewrite state_after_page. destruct (clear_clicked wd); [done|].
  destruct (submitted wd).
  - by rewrite ask_llm_once_session_id, get_session_history_session_id.
  - apply get_session_history_session_id.
Qed.

Lemma wf_state_after_page wd w : wf w → wf (state_after (page llm wd w) w).
Proof.
  intros Hw. rewrite state_after_page. destruct (clear_clicked wd).
  - by apply wf_pop_history.
  - destruct (submitted wd).
    + by apply wf_ask_llm_once, wf_get_session_history.
    + by apply wf_get_session_history.
Qed.
End Page.

(** Reading a history can add the key that is read and no other. *)
Lemma get_session_history_keys (sid k : pystr) (w : World) :
  is_Some (history_store (get_session_history sid w).2 !! k) →
  k = sid ∨ is_Some (history_store w !! k).
Proof.
  destruct (history_store w !! sid) as [l|] eqn:H.
  - rewrite (get_session_history_Some _ _ _ H). by right.
  - rewrite (get_session_history_None _ _ H). simpl.
    destruct (decide (sid = k)) as [->|Hne]; [by left|].
    rewrite lookup_insert_ne by done. by right.
Qed.

(** A call changes the store at most by that read. *)
Lemma ask_llm_once_keys (llm : LLM) (input_text role_key k : pystr) (w : World) :
  is_Some (history_store (ask_llm_once llm input_text role_key w).2 !! k) →
  k = session_id w ∨ is_Some (history_store w !! k).
Proof.
  destruct (dict_lookup EXPERT_ROLES role_key) as [instr|] eqn:H.
  - destruct (decide (strip input_text = [])) as [Hs|Hs].
    + rewrite (ask_llm_once_empty _ _ _ _ _ H Hs). by right.
    + rewrite (ask_llm_once_call _ _ _ _ _ H Hs). cbv zeta.
      destruct (llm _); simpl; apply get_session_history_keys.
  - rewrite (ask_llm_once_unknown _ _ _ _ H). by right.
Qed.

Lemma single_session_state_after_page (llm : LLM) (wd : Widgets) (w : World) :
  single_session w → single_session (state_after (page llm wd w) w).
Proof.
  intros Hw k. rewrite session_id_state_after_page, state_after_page.
  destruct (clear_clicked wd).
  - simpl. intros [l [_ Hl]%lookup_delete_Some]. apply Hw. by exists l.
  - destruct (submitted wd).
    + intros [Hk|Hk]%ask_llm_once_keys.
      * by rewrite Hk, get_session_history_session_id.
      * apply get_session_history_keys in Hk as [Hk|Hk]; [done|by apply Hw].
    + intros [Hk|Hk]%get_session_history_keys; [done|by apply Hw].
Qed.

Lemma single_session_w_fresh : single_session w_fresh.
Proof. intros k [l Hl]. simpl in Hl. by rewrite lookup_empty in Hl. Qed.

Lemma reruns_invariant (rs : list (LLM * Widgets)) (w : World) :
  wf w → single_session w →
  session_id (reruns rs w) = session_id w
  ∧ wf (reruns rs w)
  ∧ single_session (reruns rs w).
Proof.
  revert w. induction rs as [|[llm wd] rs IH]; intros w Hw Hs; [done|].
  simpl.
  destruct (IH (state_after (page llm wd w) w)) as (Hid & Hwf & Hss).
  - by apply wf_state_after_page.
  - by apply single_session_state_after_page.
  - split; [|done]. by rewrite Hid, session_id_state_after_page.
Qed.

(** X4. Whatever is clicked and typed, and whatever the model does, over
    any number of runs of the page: the session id stays the one the first
    run set, every reference of the store stays valid and unshared, and the
    store never holds a key other than that session id. *)
Theorem reruns_keep_one_session (rs : list (LLM * Widgets)) (w : World) :
  wf w → single_session w →
  session_id (reruns rs w) = session_id w
  ∧ wf (reruns rs w)
  ∧ (∀ k, is_Some (history_store (reruns rs w) !! k) → k = session_id w).
Proof.
  intros Hw Hs. destruct (reruns_invariant rs w Hw Hs) as (Hid & Hwf & Hss).
  split; [done|]. split; [done|]. intros k Hk. by rewrite <- Hid, (Hss k Hk).
Qed.

Lemma reruns_keep_one_session_witness :
  wf w_fresh ∧ single_session w_fresh
  ∧ session_id (reruns four_runs w_fresh) = session_id w_fresh
  ∧ wf (reruns four_runs w_fresh)
  ∧ (∀ k, is_Some (history_store (reruns four_runs w_fresh) !! k) →
          k = session_id w_fresh).
Proof.
  split; [exact wf_w_fresh|]. split; [exact single_session_w_fresh|].
  exact (reruns_keep_one_session four_runs w_fresh
           wf_w_fresh single_session_w_fresh).
Defined.

(** From the first run on, the only key the store ever holds is
    ["default"]. *)
Example store_key_is_default (rs : list (LLM * Widgets)) (k : pystr) :
  is_Some (history_store (reruns rs w_fresh) !! k) → k = py "default".
Proof.
  intros Hk.
  destruct (reruns_invariant rs w_fresh wf_w_fresh
              single_session_w_fresh) as (Hid & _ & Hs).
  rewrite (Hs k Hk). exact Hid.
Qed.

(** ** What one run sends and shows *)

Section OneRun.
Variable llm : LLM.
Implicit Types (w : World) (wd : Widgets).

(** With the session's entry in the store a call leaves the store as it
    is, whether it returns or raises. *)
Lemma ask_llm_once_history_store input_text role_key w :
  is_Some (history_store w !! session_id w) →
  history_store (ask_llm_once llm input_text role_key w).2 = history_store w.
Proof.
  intros [l Hl].
  destruct (dict_lookup EXPERT_ROLES role_key) as [instr|] eqn:H.
  - destruct (decide (strip input_text = [])) as [Hs|Hs].
    + by rewrite (ask_llm_once_empty _ _ _ _ _ H Hs).
    + rewrite (ask_llm_once_call _ _ _ _ _ H Hs). cbv zeta.
      rewrite (get_session_history_Some _ _ _ Hl). by destruct (llm _).
  - by rewrite (ask_llm_once_unknown _ _ _ _ H).
Qed.

Lemma history_view_snoc (hist : list BaseMessage) (m1 m2 : BaseMessage) :
  history_view (hist ++ [m1; m2]) = render_message <$> (hist ++ [m1; m2]).
Proof. by destruct hist. Qed.

(** The log of requests after a run of the page. *)
Lemma llm_log_state_after_page wd w :
  llm_log (state_after (page llm wd w) w) =
    if clear_clicked wd then llm_log w
    else if submitted wd then
      match dict_lookup EXPERT_ROLES (role wd) with
      | Some instr =>
          if decide (strip (user_text wd) = []) then llm_log w
          else llm_log w
                 ++ [prompt instr (list_history (session_id w) w)
                            (strip (user_text wd))]
      | None => llm_log w
      end
    else llm_log w.
Proof.
  rewrite state_after_page. destruct (clear_clicked wd); [done|].
  destruct (submitted wd); [|apply get_session_history_llm_log].
  destruct (dict_lookup EXPERT_ROLES (role wd)) as [instr|] eqn:H.
  - destruct (decide (strip (user_text wd) = [])) as [Hs|Hs].
    + rewrite (ask_llm_once_empty _ _ _ _ _ H Hs). simpl.
      apply get_session_history_llm_log.
    + rewrite (ask_llm_once_llm_log _ _ _ _ _ H Hs).
      by rewrite get_session_history_llm_log,
                 get_session_history_session_id, list_history_get.
  - rewrite (ask_llm_once_unknown _ _ _ _ H). simpl.
    apply get_session_history_llm_log.
Qed.
End OneRun.

(** X5. A run of the page sends the model at most one request.  It sends
    none when the clear button was clicked or the submit button was not,
    when the role is not in the table or when the text is blank; otherwise
    it sends exactly one, built from the history the session had when the
    run began. *)
Theorem page_sends_at_most_one_request
    (llm : LLM) (wd : Widgets) (w : World) :
  (clear_clicked wd = true ∨ submitted wd = false
   ∨ dict_lookup EXPERT_ROLES (role wd) = None
   ∨ strip (user_text wd) = [] →
   llm_log (state_after (page llm wd w) w) = llm_log w)
  ∧ (∀ instr,
       clear_clicked wd = false → submitted wd = true →
       dict_lookup EXPERT_ROLES (role wd) = Some instr →
       strip (user_text wd) ≠ [] →
       llm_log (state_after (page llm wd w) w)
       = llm_log w
           ++ [prompt instr (list_history (session_id w) w)
                      (strip (user_text wd))])
  ∧ (length (llm_log (state_after (page llm wd w) w))
     ≤ S (length (llm_log w)))%nat.
Proof.
  rewrite llm_log_state_after_page. repeat split.
  - intros Hor. destruct (clear_clicked wd); [done|].
    destruct (submitted wd); [|done].
    destruct (dict_lookup EXPERT_ROLES (role wd)); [|done].
    destruct (decide (strip (user_text wd) = [])); [done|].
    by destruct Hor as [?|[?|[?|?]]].
  - intros instr -> -> -> Hs. by destruct (decide (strip (user_text wd) = [])).
  - destruct (clear_clicked wd); [lia|]. destruct (submitted wd); [|lia].
    destruct (dict_lookup EXPERT_ROLES (role wd)); [|lia].
    destruct (decide (strip (user_text wd) = [])); [lia|].
    rewrite length_app. simpl. lia.
Qed.

(** X6. A run whose submission is answered shows, in the history
    expander, the history as it was before the call, then the answer; the
    exchange itself appears in the expander at the next run, as the last
    two lines, and that run changes nothing in the session state. *)
Theorem answer_shown_then_listed
    (llm : LLM) (wd : Widgets) (w w2 : World) (answer : pystr) :
  wf w →
  clear_clicked wd = false → submitted wd = true →
  ask_llm_once llm (user_text wd) (role wd)
               (get_session_history (session_id w) w).2
  = (Return answer, w2) →
  page llm wd w
  = Ran Finished
        (page_top ++ history_view (list_history (session_id w) w)
           ++ [st_success (py "回答を取得しました。");
               st_markdown (py "### ✅ 回答");
               st_write answer]) w2
  ∧ ∀ llm' r t,
      page llm' (idle r t) w2
      = Ran Finished
            (page_top
               ++ (render_message
                     <$> (list_history (session_id w) w
                            ++ [HumanMessage (strip (user_text wd));
                                AIMessage answer]))) w2.
Proof.
  intros Hw Hc Hs Hr. split.
  - rewrite page_eq, Hc, Hs. cbv zeta. by rewrite Hr.
  - intros llm' r t. rewrite page_eq. simpl.
    pose proof (ask_llm_once_session_id llm (user_text wd) (role wd)
                  (get_session_history (session_id w) w).2) as Hid.
    pose proof (ask_llm_once_history_store llm (user_text wd) (role wd)
                  _ (page_submit_entry w)) as Hst.
    pose proof (list_history_ask_llm_once_Return llm _ _ _ _ _
                  (wf_get_session_history (session_id w) w Hw) Hr) as Hh.
    rewrite Hr in Hid, Hst. simpl in Hid, Hst.
    rewrite get_session_history_session_id in Hid, Hh.
    rewrite list_history_get in Hh.
    rewrite Hid, Hh, history_view_snoc.
    destruct (page_submit_entry w) as [l Hl].
    rewrite get_session_history_session_id, <- Hst in Hl.
    by rewrite (get_session_history_Some _ _ _ Hl).
Qed.

Lemma answer_shown_then_listed_witness :
  wf w_fresh
  ∧ clear_clicked (submit ROLE_QA (py " 1 ")) = false
  ∧ submitted (submit ROLE_QA (py " 1 ")) = true
  ∧ page (llm_const (py "r1")) (submit ROLE_QA (py " 1 ")) w_fresh
    = Ran Finished
          (page_top ++ history_view (list_history (session_id w_fresh) w_fresh)
             ++ [st_success (py "回答を取得しました。");
                 st_markdown (py "### ✅ 回答");
                 st_write (py "r1")])
          (reruns [(llm_const (py "r1"), submit ROLE_QA (py " 1 "))] w_fresh)
  ∧ ∀ llm' r t,
      page llm' (idle r t)
           (reruns [(llm_const (py "r1"), submit ROLE_QA (py " 1 "))] w_fresh)
      = Ran Finished
            (page_top
               ++ (render_message
                     <$> (list_history (session_id w_fresh) w_fresh
                            ++ [HumanMessage
                                  (strip (user_text (submit ROLE_QA (py " 1 "))));
                                AIMessage (py "r1")])))
            (reruns [(llm_const (py "r1"), submit ROLE_QA (py " 1 "))] w_fresh).
Proof.
  split; [exact wf_w_fresh|]. split; [reflexivity|]. split; [reflexivity|].
  apply (answer_shown_then_listed (llm_const (py "r1"))
           (submit ROLE_QA (py " 1 ")) w_fresh).
  - exact wf_w_fresh.
  - reflexivity.
  - reflexivity.
  - by vm_compute.
Defined.

(** The two lines the expander shows after the first exchange. *)
Example first_exchange_listed :
  page llm_down (idle ROLE_QA [])
       (reruns [(llm_const (py "r1"), submit ROLE_QA (py " 1 "))] w_fresh)
  = Ran Finished
        (page_top ++ [st_markdown (py "- **👤 User**: 1");
                      st_markdown (py "- **AI**: r1")])
        (reruns [(llm_const (py "r1"), submit ROLE_QA (py " 1 "))] w_fresh).
Proof. by vm_compute. Qed.

(** X7. A run whose submission raises, for whatever reason, shows the
    history and then one error line holding the text of the exception, and
    ends as a normal run; the store and the history objects are those the
    history expander left, and every session lists what it listed before
    the run. *)
Theorem failed_submit_shows_the_error
    (llm : LLM) (wd : Widgets) (w w' : World) (e : PyException) :
  clear_clicked wd = false → submitted wd = true →
  ask_llm_once llm (user_text wd) (role wd)
               (get_session_history (session_id w) w).2 = (Raise e, w') →
  page llm wd w
  = Ran Finished
        (page_top ++ history_view (list_history (session_id w) w)
           ++ [st_error (py "エラーが発生しました：" ++ exc_message e)])
        w'
  ∧ history_store w' = history_store (get_session_history (session_id w) w).2
  ∧ heap w' = heap (get_session_history (session_id w) w).2
  ∧ ∀ k, list_history k w' = list_history k w.
Proof.
  intros Hc Hs Hr. split; [|split; [|split]].
  - rewrite page_eq, Hc, Hs. cbv zeta. by rewrite Hr.
  - eapply ask_llm_once_Raise_store; [exact Hr|]. apply page_submit_entry.
  - eapply ask_llm_once_Raise_store; [exact Hr|]. apply page_submit_entry.
  - intros k. rewrite (list_history_ask_llm_once_Raise _ _ _ _ _ _ k Hr).
    apply list_history_get.
Qed.

Lemma failed_submit_shows_the_error_witness :
  clear_clicked (submit ROLE_QA (py "hi")) = false
  ∧ submitted (submit ROLE_QA (py "hi")) = true
  ∧ page llm_down (submit ROLE_QA (py "hi")) w_two
    = Ran Finished
          (page_top ++ history_view (list_history (session_id w_two) w_two)
             ++ [st_error (py "エラーが発生しました：" ++ exc_message TIMEOUT)])
          (reruns [(llm_down, submit ROLE_QA (py "hi"))] w_two)
  ∧ history_store (reruns [(llm_down, submit ROLE_QA (py "hi"))] w_two)
    = history_store (get_session_history (session_id w_two) w_two).2
  ∧ heap (reruns [(llm_down, submit ROLE_QA (py "hi"))] w_two)
    = heap (get_session_history (session_id w_two) w_two).2
  ∧ ∀ k, list_history k (reruns [(llm_down, submit ROLE_QA (py "hi"))] w_two)
         = list_history k w_two.
Proof.
  split; [reflexivity|]. split; [reflexivity|].
  apply (failed_submit_shows_the_error llm_down
           (submit ROLE_QA (py "hi")) w_two _ TIMEOUT).
  - reflexivity.
  - reflexivity.
  - by vm_compute.
Defined.

(** The line a timeout leaves on the page. *)
Example timeout_line :
  page llm_down (submit ROLE_QA (py "hi")) w_fresh
  = Ran Finished
        (page_top ++ [st_caption (py "まだ履歴はありません。");
                      st_error (py "エラーが発生しました：Request timed out.")])
        (reruns [(llm_down, submit ROLE_QA (py "hi"))] w_fresh).
Proof. by vm_compute. Qed.

(** ** Sequences of calls *)

Section Sequences.
Implicit Types (ts : list Turn) (rs : list (result pystr)) (w : World).
Implicit Types (ms : list BaseMessage).

Lemma alternates_app (a b : MessageType) ms ms' :
  alternates a b (ms ++ ms')
  = alternates a b ms
    && (if Nat.even (length ms) then alternates a b ms'
        else alternates b a ms').
Proof.
  revert a b. induction ms as [|m r IH]; intros a b; [done|].
  change (alternates a b ((m :: r) ++ ms'))
    with (bool_decide (type m = a) && alternates b a (r ++ ms')).
  change (alternates a b (m :: r))
    with (bool_decide (type m = a) && alternates b a r).
  change (length (m :: r)) with (S (length r)).
  rewrite IH, <- andb_assoc. f_equal. f_equal.
  rewrite Nat.even_succ, <- Nat.negb_even.
  by destruct (Nat.even (length r)).
Qed.

Lemma exchanges_app ms ms' :
  exchanges ms = true → exchanges ms' = true → exchanges (ms ++ ms') = true.
Proof.
  unfold exchanges. intros [Ha He]%andb_prop [Ha' He']%andb_prop.
  rewrite alternates_app, Ha, He, Ha', length_app. simpl.
  apply Nat.even_spec. apply Nat.even_spec in He, He'.
  destruct He as [n Hn], He' as [n' Hn']. exists (n + n')%nat. lia.
Qed.

Lemma exchanges_exchange (t : Turn) (r : result pystr) :
  exchanges (exchange t r) = true.
Proof. by destruct r. Qed.

Lemma exchanges_transcript ts rs : exchanges (transcript ts rs) = true.
Proof.
  revert rs. induction ts as [|t ts IH]; intros [|r rs]; simpl; try done.
  apply exchanges_app; [apply exchanges_exchange | apply IH].
Qed.

Lemma length_transcript ts rs :
  length rs = length ts →
  length (transcript ts rs) = (2 * length (List.filter is_Return rs))%nat.
Proof.
  revert rs. induction ts as [|t ts IH]; intros [|r rs]; simpl; try done.
  intros [= Hl]. rewrite length_app, (IH _ Hl).
  destruct r; simpl; lia.
Qed.

(** What a call leaves in the history of the current session. *)
Lemma list_history_ask_llm_once (t : Turn) w r w1 :
  wf w →
  ask_llm_once (turn_llm t) (turn_input t) (turn_role t) w = (r, w1) →
  list_history (session_id w) w1
  = list_history (session_id w) w ++ exchange t r.
Proof.
  intros Hw H. destruct r as [e|c]; simpl.
  - rewrite app_nil_r. by eapply list_history_ask_llm_once_Raise.
  - by eapply list_history_ask_llm_once_Return.
Qed.

Lemma ask_llm_seq_history ts : ∀ w rs w',
  wf w → ask_llm_seq ts w = (rs, w') →
  wf w' ∧ session_id w' = session_id w ∧ length rs = length ts
  ∧ list_history (session_id w) w'
    = list_history (session_id w) w ++ transcript ts rs.
Proof.
  induction ts as [|t ts IH]; intros w rs w' Hw; simpl.
  - intros [= <- <-]. by rewrite app_nil_r.
  - destruct (ask_llm_once _ _ _ w) as [r w1] eqn:H1.
    destruct (ask_llm_seq ts w1) as [rs' w2] eqn:H2. intros [= <- <-].
    pose proof (wf_ask_llm_once (turn_llm t) (turn_input t) (turn_role t)
                  w Hw) as Hw1.
    pose proof (ask_llm_once_session_id (turn_llm t) (turn_input t)
                  (turn_role t) w) as Hid.
    rewrite H1 in Hw1, Hid. simpl in Hw1, Hid.
    destruct (IH _ _ _ Hw1 H2) as (Hw2 & Hid2 & Hl & Hh).
    split; [done|]. split; [congruence|]. split; [simpl; congruence|].
    rewrite Hid in Hh. rewrite Hh, (list_history_ask_llm_once t w r w1 Hw H1).
    by rewrite <- app_assoc.
Qed.
End Sequences.

(** X8. After any sequence of calls on the same session, each with its
    own text, role and behaviour of the model, the history of the session
    is the history before followed by one human-then-assistant pair for
    each call that returned, in the order of the calls, and nothing for a
    call that raised: it has grown by twice the number of calls that
    returned, and a history that was empty is now human, assistant, human,
    assistant and so on. *)
Theorem calls_append_whole_exchanges
    (ts : list Turn) (w w' : World) (rs : list (result pystr)) :
  wf w →
  ask_llm_seq ts w = (rs, w') →
  list_history (session_id w) w'
  = list_history (session_id w) w ++ transcript ts rs
  ∧ length (list_history (session_id w) w')
    = (length (list_history (session_id w) w)
       + 2 * length (List.filter is_Return rs))%nat
  ∧ alternates human ai (transcript ts rs) = true
  ∧ (list_history (session_id w) w = [] →
     alternates human ai (list_history (session_id w) w') = true).
Proof.
  intros Hw Hs. destruct (ask_llm_seq_history ts w rs w' Hw Hs)
    as (_ & _ & Hl & Hh).
  pose proof (exchanges_transcript ts rs) as [Ha _]%andb_prop.
  split; [done|]. split; [|split; [done|]].
  - by rewrite Hh, length_app, length_transcript.
  - intros He. by rewrite Hh, He.
Qed.

Lemma calls_append_whole_exchanges_witness :
  wf w_fresh
  ∧ ask_llm_seq three_turns w_fresh
    = ([Return (py "r1"); Raise TIMEOUT; Return (py "r2")],
       (ask_llm_seq three_turns w_fresh).2)
  ∧ list_history (session_id w_fresh) (ask_llm_seq three_turns w_fresh).2
    = list_history (session_id w_fresh) w_fresh
        ++ transcript three_turns
                      [Return (py "r1"); Raise TIMEOUT; Return (py "r2")]
  ∧ length (list_history (session_id w_fresh)
                         (ask_llm_seq three_turns w_fresh).2)
    = (length (list_history (session_id w_fresh) w_fresh)
       + 2 * length (List.filter is_Return
                       [Return (py "r1"); Raise TIMEOUT; Return (py "r2")]))%nat
  ∧ alternates human ai
      (transcript three_turns
                  [Return (py "r1"); Raise TIMEOUT; Return (py "r2")]) = true
  ∧ (list_history (session_id w_fresh) w_fresh = [] →
     alternates human ai
       (list_history (session_id w_fresh) (ask_llm_seq three_turns w_fresh).2)
     = true).
Proof.
  split; [exact wf_w_fresh|]. split; [by vm_compute|].
  apply (calls_append_whole_exchanges three_turns w_fresh).
  - exact wf_w_fresh.
  - by vm_compute.
Defined.

(** The history after the three calls: the timeout left nothing. *)
Example three_turns_history :
  list_history (py "default") (ask_llm_seq three_turns w_fresh).2
  = [HumanMessage (py "1"); AIMessage (py "r1");
     HumanMessage (py "2"); AIMessage (py "r2")].
Proof. by vm_compute. Qed.

(** ** The shape of the requests *)

Section Conversations.
Implicit Types (ts : list Turn) (rs : list (result pystr)) (w : World).

Lemma conversation_prompt (instr x : pystr) (hist : list BaseMessage) :
  exchanges hist = true → conversation (prompt instr hist x) = true.
Proof.
  unfold exchanges. intros [Ha He]%andb_prop.
  unfold prompt. cbn [app conversation type SystemMessage].
  change ([SystemMessage instr] ++ hist ++ [HumanMessage x])
    with (SystemMessage instr :: (hist ++ [HumanMessage x])).
  cbn [conversation type SystemMessage].
  rewrite alternates_app, Ha, He, length_app, Nat.add_1_r, Nat.odd_succ, He.
  reflexivity.
Qed.

(** One call adds to the log nothing or one conversation. *)
Lemma ask_llm_once_new_request (llm : LLM) (input_text role_key : pystr) w :
  exchanges (list_history (session_id w) w) = true →
  ∃ new,
    llm_log (ask_llm_once llm input_text role_key w).2 = llm_log w ++ new
    ∧ forallb conversation new = true
    ∧ (length new ≤ 1)%nat.
Proof.
  intros He.
  destruct (dict_lookup EXPERT_ROLES role_key) as [instr|] eqn:H.
  - destruct (decide (strip input_text = [])) as [Hs|Hs].
    + rewrite (ask_llm_once_empty _ _ _ _ _ H Hs). exists []. simpl.
      rewrite app_nil_r. split; [done|]. split; [done|lia].
    + rewrite (ask_llm_once_llm_log _ _ _ _ _ H Hs). eexists [_]. simpl.
      rewrite (conversation_prompt instr (strip input_text) _ He).
      split; [done|]. split; [done|lia].
  - rewrite (ask_llm_once_unknown _ _ _ _ H). exists []. simpl.
    rewrite app_nil_r. split; [done|]. split; [done|lia].
Qed.

Lemma ask_llm_seq_requests ts : ∀ w rs w',
  wf w → exchanges (list_history (session_id w) w) = true →
  ask_llm_seq ts w = (rs, w') →
  ∃ new,
    llm_log w' = llm_log w ++ new
    ∧ forallb conversation new = true
    ∧ (length new ≤ length ts)%nat.
Proof.
  induction ts as [|t ts IH]; intros w rs w' Hw He; simpl.
  - intros [= <- <-]. exists []. rewrite app_nil_r.
    split; [done|]. split; [done|simpl; lia].
  - destruct (ask_llm_once _ _ _ w) as [r w1] eqn:H1.
    destruct (ask_llm_seq ts w1) as [rs' w2] eqn:H2. intros [= <- <-].
    pose proof (wf_ask_llm_once (turn_llm t) (turn_input t) (turn_role t)
                  w Hw) as Hw1.
    pose proof (ask_llm_once_session_id (turn_llm t) (turn_input t)
                  (turn_role t) w) as Hid.
    destruct (ask_llm_once_new_request (turn_llm t) (turn_input t)
                (turn_role t) w He) as (new1 & Hn1 & Hc1 & Hl1).
    rewrite H1 in Hw1, Hid, Hn1. simpl in Hw1, Hid, Hn1.
    destruct (IH w1 rs' w2 Hw1) as (new2 & Hn2 & Hc2 & Hl2); [|done|].
    + rewrite Hid, (list_history_ask_llm_once t w r w1 Hw H1).
      apply exchanges_app; [done|apply exchanges_exchange].
    + exists (new1 ++ new2). rewrite Hn2, Hn1, <- app_assoc.
      split; [done|]. rewrite forallb_app, Hc1, Hc2, length_app.
      split; [done|]. simpl. lia.
Qed.
End Conversations.

(** X9. When the history of the session is made of whole exchanges, as
    it is when empty, it still is after any sequence of calls, and every
    request those calls send to the model is a conversation: the system
    message, then human and assistant messages in turn, ending with the
    human message of the call.  There is at most one request for each
    call. *)
Theorem requests_are_conversations
    (ts : list Turn) (w w' : World) (rs : list (result pystr)) :
  wf w →
  exchanges (list_history (session_id w) w) = true →
  ask_llm_seq ts w = (rs, w') →
  exchanges (list_history (session_id w) w') = true
  ∧ ∃ new,
      llm_log w' = llm_log w ++ new
      ∧ forallb conversation new = true
      ∧ (length new ≤ length ts)%nat.
Proof.
  intros Hw He Hs. split.
  - destruct (ask_llm_seq_history ts w rs w' Hw Hs) as (_ & _ & _ & Hh).
    rewrite Hh. apply exchanges_app; [done|apply exchanges_transcript].
  - by eapply ask_llm_seq_requests.
Qed.

Lemma wf_w_two : wf w_two.
Proof.
  split; simpl.
  - intros k l [[_ <-]|[_ [[_ <-]|[_ H]]%lookup_insert_Some]]%lookup_insert_Some;
      [lia|lia|by rewrite lookup_empty in H].
  - intros k1 k2 l
      [[<- <-]|[_ [[<- <-]|[_ H1]]%lookup_insert_Some]]%lookup_insert_Some
      [[<- Hl]|[_ [[<- Hl]|[_ H2]]%lookup_insert_Some]]%lookup_insert_Some;
      try done; by rewrite lookup_empty in *.
Qed.

Lemma requests_are_conversations_witness :
  wf w_two
  ∧ exchanges (list_history (session_id w_two) w_two) = true
  ∧ ask_llm_seq three_turns w_two
    = ([Return (py "r1"); Raise TIMEOUT; Return (py "r2")],
       (ask_llm_seq three_turns w_two).2)
  ∧ exchanges (list_history (session_id w_two)
                            (ask_llm_seq three_turns w_two).2) = true
  ∧ ∃ new,
      llm_log (ask_llm_seq three_turns w_two).2 = llm_log w_two ++ new
      ∧ forallb conversation new = true
      ∧ (length new ≤ length three_turns)%nat.
Proof.
  split; [exact wf_w_two|]. split; [by vm_compute|]. split; [by vm_compute|].
  apply (requests_are_conversations three_turns w_two _
           [Return (py "r1"); Raise TIMEOUT; Return (py "r2")]).
  - exact wf_w_two.
  - by vm_compute.
  - by vm_compute.
Defined.

(** ** Clearing, and the other sessions *)

Section Clear.
Implicit Types (w : World) (sid k : pystr).

Lemma list_history_pop_history_eq sid w :
  list_history sid (pop_history sid w) = [].
Proof. rewrite list_history_lookup. simpl. by rewrite lookup_delete_eq. Qed.

Lemma list_history_pop_history_ne sid k w :
  k ≠ sid → list_history k (pop_history sid w) = list_history k w.
Proof.
  intros Hne. rewrite !list_history_lookup. simpl.
  by rewrite lookup_delete_ne.
Qed.

Lemma pop_history_absent sid w :
  history_store w !! sid = None → pop_history sid w = w.
Proof.
  intros H. destruct w as [s m h g]. unfold pop_history, set_history_store.
  simpl in *. by rewrite delete_id.
Qed.

Lemma pop_history_twice sid w :
  pop_history sid (pop_history sid w) = pop_history sid w.
Proof.
  unfold pop_history, set_history_store. simpl. by rewrite delete_delete_eq.
Qed.
End Clear.

(** X10. A click on the clear button ends the run at once with the
    success message: the entry of the session is taken out of the store,
    the history objects and the log of requests are left alone, the
    expander and the submit handler do not run.  After it the session
    lists nothing and the next successful call starts the history anew;
    taking out an entry that is not there changes nothing, and so does
    taking it out twice. *)
Theorem clear_button_forgets_the_session
    (llm : LLM) (wd : Widgets) (sid : pystr) (w : World) :
  (clear_clicked wd = true →
   page llm wd w
   = Ran Rerun (page_top ++ [st_success (py "履歴をクリアしました。")])
         (pop_history (session_id w) w))
  ∧ history_store (pop_history sid w) !! sid = None
  ∧ list_history sid (pop_history sid w) = []
  ∧ heap (pop_history sid w) = heap w
  ∧ llm_log (pop_history sid w) = llm_log w
  ∧ (history_store w !! sid = None → pop_history sid w = w)
  ∧ pop_history sid (pop_history sid w) = pop_history sid w
  ∧ (wf w →
     ∀ input_text role_key answer w',
       ask_llm_once llm input_text role_key (pop_history (session_id w) w)
       = (Return answer, w') →
       list_history (session_id w) w'
       = [HumanMessage (strip input_text); AIMessage answer]).
Proof.
  split; [|split; [|split; [|split; [|split; [|split; [|split]]]]]].
  - intros Hc. by rewrite page_eq, Hc.
  - simpl. apply lookup_delete_eq.
  - apply list_history_pop_history_eq.
  - done.
  - done.
  - apply pop_history_absent.
  - apply pop_history_twice.
  - intros Hw input_text role_key answer w' Hr.
    apply list_history_ask_llm_once_Return in Hr; [|by apply wf_pop_history].
    simpl in Hr. by rewrite Hr, list_history_pop_history_eq.
Qed.

(** Clearing after one exchange, then asking again. *)
Example clear_then_ask :
  list_history (py "default")
    (reruns [(llm_down, clear ROLE_QA []);
             (llm_const (py "r9"), submit ROLE_QA (py "9"))] w_two)
  = [HumanMessage (py "9"); AIMessage (py "r9")].
Proof. by vm_compute. Qed.

(** X11. Nothing that is done for the current session changes what
    another session lists: not taking its entry out of the store, not
    reading its history, not a call of [ask_llm_once] whether it returns
    or raises, not a whole run of the page. *)
Theorem other_sessions_untouched
    (llm : LLM) (wd : Widgets) (input_text role_key s2 : pystr) (w : World) :
  wf w →
  s2 ≠ session_id w →
  list_history s2 (pop_history (session_id w) w) = list_history s2 w
  ∧ list_history s2 (get_session_history (session_id w) w).2
    = list_history s2 w
  ∧ list_history s2 (ask_llm_once llm input_text role_key w).2
    = list_history s2 w
  ∧ list_history s2 (state_after (page llm wd w) w) = list_history s2 w.
Proof.
  intros Hw Hne. split; [|split; [|split]].
  - by apply list_history_pop_history_ne.
  - apply list_history_get.
  - by apply list_history_ask_llm_once_other.
  - rewrite state_after_page. destruct (clear_clicked wd).
    + by apply list_history_pop_history_ne.
    + destruct (submitted wd); [|apply list_history_get].
      rewrite list_history_ask_llm_once_other.
      * apply list_history_get.
      * by apply wf_get_session_history.
      * by rewrite get_session_history_session_id.
Qed.

Lemma other_sessions_untouched_witness :
  wf w_two
  ∧ py "other" ≠ session_id w_two
  ∧ list_history (py "other") (pop_history (session_id w_two) w_two)
    = list_history (py "other") w_two
  ∧ list_history (py "other") (get_session_history (session_id w_two) w_two).2
    = list_history (py "other") w_two
  ∧ list_history (py "other")
      (ask_llm_once (llm_const (py "r")) (py "q") ROLE_QA w_two).2
    = list_history (py "other") w_two
  ∧ list_history (py "other")
      (state_after (page (llm_const (py "r")) (submit ROLE_QA (py "q")) w_two)
                   w_two)
    = list_history (py "other") w_two.
Proof.
  split; [exact wf_w_two|]. split; [by vm_compute|].
  apply (other_sessions_untouched (llm_const (py "r"))
           (submit ROLE_QA (py "q")) (py "q") ROLE_QA (py "other") w_two).
  - exact wf_w_two.
  - by vm_compute.
Defined.

(** ** Reading a history *)

Lemma messages_get_session_history (sid : pystr) (w : World) (l : nat) :
  messages (get_session_history sid w).2 l = messages w l.
Proof.
  destruct (history_store w !! sid) as [l'|] eqn:H.
  - by rewrite (get_session_history_Some _ _ _ H).
  - rewrite (get_session_history_None _ _ H). apply lookup_alloc.
Qed.

(** X12. [get_session_history] leaves the key bound to the reference it
    returns, and a second call returns the same reference and changes
    nothing.  A key that was bound keeps its object and the state is not
    touched at all; a key that was not is bound to a new object with no
    messages, so that reading a history changes the store.  In both cases
    every other binding and the messages of every object stay as they
    were. *)
Theorem get_session_history_binds_once (sid : pystr) (w : World) :
  history_store (get_session_history sid w).2 !! sid
  = Some (get_session_history sid w).1
  ∧ get_session_history sid (get_session_history sid w).2
    = get_session_history sid w
  ∧ (∀ l, history_store w !! sid = Some l →
          get_session_history sid w = (l, w))
  ∧ (history_store w !! sid = None →
     (get_session_history sid w).1 = length (heap w)
     ∧ heap w !! length (heap w) = None
     ∧ history_store (get_session_history sid w).2
       = <[sid := length (heap w)]> (history_store w)
     ∧ heap (get_session_history sid w).2 = heap w ++ [[]]
     ∧ messages (get_session_history sid w).2 (length (heap w)) = [])
  ∧ (∀ k, k ≠ sid →
          history_store (get_session_history sid w).2 !! k
          = history_store w !! k)
  ∧ (∀ l, messages (get_session_history sid w).2 l = messages w l)
  ∧ (∀ k, list_history k (get_session_history sid w).2 = list_history k w).
Proof.
  split; [|split; [|split; [|split; [|split; [|split]]]]].
  - apply get_session_history_bound.
  - pose proof (get_session_history_bound sid w) as Hb.
    rewrite (get_session_history_Some _ _ _ Hb).
    by destruct (get_session_history sid w).
  - intros l. apply get_session_history_Some.
  - intros H. rewrite (get_session_history_None _ _ H). simpl.
    split; [done|]. split; [by apply lookup_ge_None_2|].
    split; [done|]. split; [done|].
    unfold messages. simpl. by rewrite list_lookup_middle.
  - intros k Hk. destruct (history_store w !! sid) as [l|] eqn:H.
    + by rewrite (get_session_history_Some _ _ _ H).
    + rewrite (get_session_history_None _ _ H). simpl.
      by rewrite lookup_insert_ne.
  - intros l. apply messages_get_session_history.
  - intros k. apply list_history_get.
Qed.

(** Opening the page on the first run creates the entry of the session. *)
Example first_run_creates_the_entry :
  history_store (reruns [(llm_down, idle ROLE_QA [])] w_fresh)
  = {[ py "default" := 0%nat ]}
  ∧ heap (reruns [(llm_down, idle ROLE_QA [])] w_fresh) = [[]].
Proof. by vm_compute. Qed.

(** ** The options of the radio *)

Lemma dict_keys_lookup (d : pydict) (k : pystr) :
  k ∈ dict_keys d ↔ is_Some (dict_lookup d k).
Proof.
  unfold dict_keys. induction d as [|[k' v] d IH]; simpl.
  - split; [by intros ?%elem_of_nil | by intros [? ?]].
  - rewrite elem_of_cons, IH. destruct (decide (k' = k)) as [->|Hne].
    + split; [by eauto | by left].
    + split; [by intros [?|?] | by right].
Qed.

(** X13. The radio offers exactly the keys of the role table, and every
    one of them is accepted: with such a role a call never fails for the
    role; it raises the empty-input error when the text is blank and
    otherwise hands the model a request whose system message is the
    instruction of that role.  A role that is not an option is refused. *)
Theorem radio_options_are_accepted
    (llm : LLM) (input_text role_key : pystr) (w : World) :
  (role_key ∈ dict_keys EXPERT_ROLES →
   ∃ instr,
     dict_lookup EXPERT_ROLES role_key = Some instr
     ∧ instr ≠ []
     ∧ if decide (strip input_text = []) then
         ask_llm_once llm input_text role_key w
         = (Raise (ValueError MSG_EMPTY_INPUT), w)
       else
         (ask_llm_once llm input_text role_key w).1
         = llm (prompt instr (list_history (session_id w) w)
                       (strip input_text)))
  ∧ (role_key ∉ dict_keys EXPERT_ROLES →
     ask_llm_once llm input_text role_key w
     = (Raise (ValueError MSG_UNKNOWN_ROLE), w)).
Proof.
  split.
  - intros [instr H]%dict_keys_lookup. exists instr. split; [done|].
    split; [by apply py_not_false, EXPERT_ROLES_not_empty with role_key|].
    destruct (decide (strip input_text = [])) as [Hs|Hs].
    + by apply ask_llm_once_empty with instr.
    + by apply ask_llm_once_result.
  - intros Hn. apply ask_llm_once_unknown.
    destruct (dict_lookup EXPERT_ROLES role_key) eqn:H; [|done].
    exfalso. apply Hn, dict_keys_lookup. by rewrite H.
Qed.
